(** * dataset.py: union dataset, stratified index split and batch collation

    A shallow embedding of [src/dataset.py].  Python values are modelled as
    the program has them: file names are strings, indices are integers (they
    may be negative, and list indexing wraps them as Python does), samples
    are one-dimensional integer tensors, labels and split fractions are
    binary64 floats, and an exception is the [Err] branch of [result].

    The collaborators the module imports are not part of it: the file system
    ([os.listdir], [os.path.join], [open] with [pickle.load], which may
    raise whatever exception it raises) and the random-split primitive
    ([sklearn]'s [train_test_split], which draws from an ambient random
    state) are parameters of the program section. *)

From Stdlib Require Import ZArith String Ascii Bool Floats Lia List Permutation
  Sorted.
Import ListNotations.
Local Open Scope Z_scope.

(** ** Python values *)

(** The exceptions that can leave the functions of the module. *)
Inductive exn : Type :=
| IndexError                               (* list index out of range *)
| EmptyMaxError                            (* [max] of an empty sequence *)
| FractionsError (non_train_size : float)  (* the [ValueError] of [make_loaders] *)
| OSError (path : string)                  (* [os.listdir] failed *)
| LoadError (path : string)                (* a file that cannot be opened or unpickled *)
| SplitError                               (* raised inside [train_test_split] *)
| DataLoaderError.                         (* the [ValueError] of [DataLoader(...)] *)

Inductive result (A : Type) : Type :=
| Ok (a : A)
| Err (e : exn).
Arguments Ok {A} a.
Arguments Err {A} e.

Definition is_ok {A} (r : result A) : bool :=
  match r with Ok _ => true | Err _ => false end.

(** A number passed as a split size: Python's [int] or [float]. *)
Inductive pynum : Type :=
| PyInt (z : Z)
| PyFloat (f : float).

(** [l[i]] on a Python list: a negative index counts from the end. *)
Definition list_getitem {A} (l : list A) (i : Z) : result A :=
  let n := Z.of_nat (length l) in
  let j := if i <? 0 then i + n else i in
  if (j <? 0) || (n <=? j) then Err IndexError
  else match nth_error l (Z.to_nat j) with
       | Some a => Ok a
       | None => Err IndexError
       end.

(** [range(lo, hi)] as the list of its elements. *)
Definition range (lo hi : nat) : list Z := map Z.of_nat (seq lo (hi - lo)).

(** [sorted] on a list of strings (code-point order). *)
Fixpoint insert_sorted (x : string) (l : list string) : list string :=
  match l with
  | [] => [x]
  | y :: l' => if String.leb x y then x :: l else y :: insert_sorted x l'
  end.

Definition sorted (l : list string) : list string :=
  fold_right insert_sorted [] l.

(** [max] of a list of lengths. *)
Definition py_max (l : list nat) : result nat :=
  match l with
  | [] => Err EmptyMaxError
  | x :: l' => Ok (fold_left Nat.max l' x)
  end.

(** ** State and exceptions

    A computation that may draw from the ambient random state [S] and may
    raise: it returns its outcome together with the state it leaves. *)
Definition M (S A : Type) : Type := S -> result A * S.

Definition ret {S A} (a : A) : M S A := fun s => (Ok a, s).
Definition raise {S A} (e : exn) : M S A := fun s => (Err e, s).
Definition bind {S A B} (m : M S A) (k : A -> M S B) : M S B :=
  fun s => match m s with
           | (Ok a, s') => k a s'
           | (Err e, s') => (Err e, s')
           end.
Definition lift {S A} (r : result A) : M S A := fun s => (r, s).

Declare Scope py_scope.
Delimit Scope py_scope with py.
Notation "x <- m ;; k" := (bind m (fun x => k))
  (at level 61, m at next level, right associativity) : py_scope.
Notation "' p <- m ;; k" := (bind m (fun x => match x with p => k end))
  (at level 61, p pattern, m at next level, right associativity) : py_scope.

(** ** Data model *)

(** A sample: a one-dimensional integer tensor. *)
Definition tensor : Type := list Z.

(** A batch tensor: a list of rows. *)
Definition tensor2 : Type := list (list Z).

Record MalwareDataset : Type := {
  benign_dir : string;
  malware_dir : string;
  benign_files : list string;
  malware_files : list string
}.

Record UniLabelDataset : Type := {
  data_dir : string;
  label : float;
  files : list string
}.

(** [Subset(dataset, indices)]: an index view, the dataset is not copied. *)
Record Subset : Type := {
  sub_dataset : MalwareDataset;
  sub_indices : list Z
}.

(** [DataLoader(dataset, batch_size, collate_fn=collate_fn, shuffle)]. *)
Record DataLoader : Type := {
  dl_dataset : Subset;
  dl_batch_size : Z;
  dl_shuffle : bool
}.

(** [MalwareDataset.__len__] *)
Definition MalwareDataset_len (self : MalwareDataset) : nat :=
  length (benign_files self) + length (malware_files self).

(** ** Collation *)

(** [t.new_full((rows, cols), v)] *)
Definition new_full (rows cols : nat) (v : Z) : tensor2 :=
  repeat (repeat v cols) rows.

(** [row[:k] = src], for a source of the slice's size. *)
Definition slice_assign (row : list Z) (k : nat) (src : list Z) : list Z :=
  src ++ skipn k row.

(** [out[i] = row'] *)
Fixpoint set_row (out : tensor2) (i : nat) (row' : list Z) : tensor2 :=
  match out, i with
  | [], _ => []
  | _ :: rest, O => row' :: rest
  | r :: rest, S i' => r :: set_row rest i' row'
  end.

(** [out[i, :k] = src] *)
Definition assign_row_prefix (out : tensor2) (i k : nat) (src : list Z) : tensor2 :=
  match nth_error out i with
  | Some row => set_row out i (slice_assign row k src)
  | None => out
  end.

(** The body of [for i, tensor in enumerate(sequences)], from row [i] on. *)
Fixpoint pad_rows (max_len : nat) (i : nat) (sequences : list tensor)
    (out_tensor : tensor2) : tensor2 :=
  match sequences with
  | [] => out_tensor
  | t :: rest =>
      let length := List.length t in
      let out' :=
        if (length <? max_len)%nat
        then assign_row_prefix out_tensor i length t
        else assign_row_prefix out_tensor i max_len (firstn max_len t) in
      pad_rows max_len (S i) rest out'
  end.

Definition pad_sequence (sequences : list tensor) (max_len : option nat)
    (padding_value : Z) : result tensor2 :=
  let batch_size := List.length sequences in
  match (match max_len with
         | None => py_max (map (@List.length Z) sequences)
         | Some m => Ok m
         end) with
  | Err e => Err e
  | Ok max_len =>
      match sequences with
      | [] => Err IndexError              (* [sequences[0]] *)
      | _ :: _ =>
          Ok (pad_rows max_len 0 sequences
                (new_full batch_size max_len padding_value))
      end
  end.

Definition collate_fn (batch : list (tensor * float)) : result (tensor2 * list float) :=
  match pad_sequence (map fst batch) (Some 4096%nat) 256 with
  | Err e => Err e
  | Ok xs => Ok (xs, map snd batch)
  end.

(** ** Floats and split sizes *)

(** [float(z)] for a Python [int] (round to nearest even). *)
Definition float_of_Z (z : Z) : float :=
  SF2Prim (binary_normalize prec emax z 0 false).

(** [math.ceil(x)]; it raises on infinities and NaN ([None] here). *)
Definition py_ceil (x : float) : option Z :=
  match Prim2SF x with
  | S754_zero _ => Some 0
  | S754_finite s m e =>
      let z := if s then Z.neg m else Z.pos m in
      Some (if 0 <=? e then z * 2 ^ e else - ((- z) / 2 ^ (- e)))
  | _ => None
  end.

(** The number of held-out elements the random-split primitive takes from
    [n_samples] elements: [ceil(test_size * n_samples)] for a float
    fraction, the number itself for an int. *)
Definition n_test_of (test_size : pynum) (n_samples : nat) : option Z :=
  match test_size with
  | PyInt z => Some z
  | PyFloat f => py_ceil (f * float_of_Z (Z.of_nat n_samples))%float
  end.

(** ** A reference environment

    A small concrete file system and a concrete random-split primitive, on
    which the program can be run.  The primitive follows the size rule
    [n_test_of] and, as the imported one does, raises when it is asked to
    hold out nothing or to keep nothing; without shuffling it keeps the
    first elements and holds out the last ones, with shuffling it first
    permutes the indices as the random state says (here: a rotation) and
    holds out the first ones. *)
Module Ref.

Definition file_name (prefix : string) (k : nat) : string :=
  (prefix ++
   String (ascii_of_nat (48 + k / 100))
     (String (ascii_of_nat (48 + (k / 10) mod 10))
        (String (ascii_of_nat (48 + k mod 10)) ".pkl")))%string.

Definition file_names (prefix : string) (n : nat) : list string :=
  map (file_name prefix) (rev (seq 0 n)).

Definition listdir (path : string) : option (list string) :=
  if String.eqb path "benign" then Some (file_names "b" 5)
  else if String.eqb path "malware" then Some (file_names "m" 5)
  else if String.eqb path "/home/kali/deep-malware-detection/raw/test/benign"
  then Some (file_names "tb" 1)
  else if String.eqb path "/home/kali/deep-malware-detection/raw/test/malware"
  then Some (file_names "tm" 1)
  else None.

Definition path_join (dir file : string) : string :=
  (dir ++ "/" ++ file)%string.

(** Every file holds the bytes of its own path. *)
Definition load_tensor (path : string) : result tensor :=
  Ok (map (fun c => Z.of_nat (nat_of_ascii c)) (list_ascii_of_string path)).

Definition rng : Type := Z.

Definition next (s : rng) : rng := (s * 1103515245 + 12345) mod 2147483648.

Definition rotate {A} (k : nat) (l : list A) : list A :=
  skipn k l ++ firstn k l.

Definition permutation (s : rng) (idx : list Z) : list Z :=
  rotate (Z.to_nat (s mod Z.of_nat (length idx))) idx.

(** The split itself, for any held-out count from 0 to all. *)
Definition permissive_train_test_split (idx : list Z) (test_size : pynum)
    (shuffle : bool) (s : rng) : option (list Z * list Z) * rng :=
  let n_samples := length idx in
  match n_test_of test_size n_samples with
  | None => (None, s)
  | Some k =>
      if (k <? 0) || (Z.of_nat n_samples <? k) then (None, s)
      else
        let n_test := Z.to_nat k in
        let n_train := (n_samples - n_test)%nat in
        if shuffle then
          let perm := permutation s idx in
          (Some (skipn n_test perm, firstn n_test perm), next s)
        else (Some (firstn n_train idx, skipn n_train idx), s)
  end.

(** The primitive: it raises unless the held-out count is positive and
    leaves something to keep. *)
Definition train_test_split (idx : list Z) (test_size : pynum)
    (shuffle : bool) (s : rng) : option (list Z * list Z) * rng :=
  match n_test_of test_size (length idx) with
  | None => (None, s)
  | Some k =>
      if (k <=? 0) || (Z.of_nat (length idx) <=? k) then (None, s)
      else permissive_train_test_split idx test_size shuffle s
  end.

Definition dataset (num_benign num_malware : nat) : MalwareDataset :=
  Build_MalwareDataset "benign" "malware"
    (sorted (file_names "b" num_benign)) (sorted (file_names "m" num_malware)).

End Ref.

(** ** The program *)

Section Program.

(** The file system: directory listing, path joining, and reading one
    pickled sample into a tensor, which gives the tensor or the exception
    that [open], [pickle.load] or [torch.tensor] raised. *)
Variable listdir : string -> option (list string).
Variable path_join : string -> string -> string.
Variable load_tensor : string -> result tensor.

(** The ambient random state and the random-split primitive
    [train_test_split(idx, test_size=..., shuffle=...)], which returns
    the kept part and the held-out part and the state it leaves. *)
Variable rng : Type.
Variable train_test_split :
  list Z -> pynum -> bool -> rng -> option (list Z * list Z) * rng.

Definition os_listdir (path : string) : result (list string) :=
  match listdir path with
  | Some l => Ok l
  | None => Err (OSError path)
  end.

(** [MalwareDataset.__init__] *)
Definition MalwareDataset_init (benign_dir malware_dir : string)
  : result MalwareDataset :=
  match os_listdir benign_dir with
  | Err e => Err e
  | Ok bs =>
      match os_listdir malware_dir with
      | Err e => Err e
      | Ok ms =>
          Ok (Build_MalwareDataset benign_dir malware_dir (sorted bs) (sorted ms))
      end
  end.

(** [try: body except IndexError: handler] *)
Definition try_except_IndexError {A} (body handler : result A) : result A :=
  match body with
  | Err IndexError => handler
  | r => r
  end.

(** [with open(file_dir, "rb") as f: file_ = torch.tensor(pickle.load(f))] *)
Definition load_sample (file_dir : string) (label : float)
  : result (tensor * float) :=
  match load_tensor file_dir with
  | Ok file_ => Ok (file_, label)
  | Err e => Err e
  end.

(** [MalwareDataset.__getitem__] *)
Definition MalwareDataset_getitem (self : MalwareDataset) (index : Z)
  : result (tensor * float) :=
  match
    try_except_IndexError
      (match list_getitem (benign_files self) index with
       | Ok f => Ok (path_join (benign_dir self) f, 0%float)
       | Err e => Err e
       end)
      (match list_getitem (malware_files self)
               (index - Z.of_nat (length (benign_files self))) with
       | Ok f => Ok (path_join (malware_dir self) f, 1%float)
       | Err e => Err e
       end)
  with
  | Err e => Err e
  | Ok (file_dir, label) => load_sample file_dir label
  end.

(** [UniLabelDataset.__init__], [__getitem__] and [__len__] *)
Definition UniLabelDataset_init (data_dir : string) (is_malware : bool)
  : result UniLabelDataset :=
  match os_listdir data_dir with
  | Err e => Err e
  | Ok fs =>
      Ok (Build_UniLabelDataset data_dir
            (if is_malware then 1%float else 0%float) (sorted fs))
  end.

Definition UniLabelDataset_getitem (self : UniLabelDataset) (index : Z)
  : result (tensor * float) :=
  match list_getitem (files self) index with
  | Err e => Err e
  | Ok f => load_sample (path_join (data_dir self) f) (label self)
  end.

Definition UniLabelDataset_len (self : UniLabelDataset) : nat :=
  length (files self).

(** A call of the primitive; an exception inside it is [SplitError]. *)
Definition split (idx : list Z) (test_size : pynum) (shuffle : bool)
  : M rng (list Z * list Z) :=
  fun s => match train_test_split idx test_size shuffle s with
           | (Some p, s') => (Ok p, s')
           | (None, s') => (Err SplitError, s')
           end.

Definition train_val_test_split (idx : list Z) (val_size test_size : pynum)
    (shuffle : bool) : M rng (list Z * list Z * list Z) :=
  (' (tv_idx, test_idx) <- split idx test_size shuffle ;;
   ' (train_idx, val_idx) <- split tv_idx val_size shuffle ;;
   ret (train_idx, val_idx, test_idx))%py.

Definition make_idx (dataset : MalwareDataset) (val_size test_size : pynum)
  : M rng (list Z * list Z * list Z) :=
  let num_benign := length (benign_files dataset) in
  let num_malware := length (malware_files dataset) in
  let benign_idx := range 0 num_benign in
  let malware_idx := range num_benign (num_benign + num_malware) in
  (' (benign_train_idx, benign_val_idx, benign_test_idx) <-
      train_val_test_split benign_idx val_size test_size true ;;
   ' (malware_train_idx, malware_val_idx, malware_test_idx) <-
      train_val_test_split malware_idx val_size test_size true ;;
   let train_idx := benign_train_idx ++ malware_train_idx in
   let val_idx := benign_val_idx ++ malware_val_idx in
   let test_idx := benign_test_idx ++ malware_test_idx in
   ret (train_idx, val_idx, test_idx))%py.

(** [DataLoader(dataset, batch_size=..., collate_fn=collate_fn,
    shuffle=...)]: building the loader raises [ValueError] when the batch
    size is not positive, and when it is to shuffle a dataset of no
    elements; otherwise the loader is the record of what it was built
    from. *)
Definition make_loader (dataset : Subset) (batch_size : Z) (shuffle : bool)
  : result DataLoader :=
  if (batch_size <=? 0) ||
     (shuffle && (length (sub_indices dataset) =? 0)%nat)
  then Err DataLoaderError
  else Ok (Build_DataLoader dataset batch_size shuffle).

(** The directories of the second dataset, written into [make_loaders]. *)
Definition testing_benign_dir : string :=
  "/home/kali/deep-malware-detection/raw/test/benign"%string.
Definition testing_malware_dir : string :=
  "/home/kali/deep-malware-detection/raw/test/malware"%string.

Definition make_loaders (benign_dir malware_dir : string) (batch_size : Z)
    (val_size test_size : float)
  : M rng (DataLoader * DataLoader * DataLoader) :=
  let non_train_size := (val_size + test_size)%float in
  if (1 <=? non_train_size)%float then raise (FractionsError non_train_size)
  else
    (dataset <- lift (MalwareDataset_init benign_dir malware_dir) ;;
     ' (train_idx, val_idx, test_idx) <-
        make_idx dataset (PyFloat val_size) (PyFloat test_size) ;;
     let train_dataset := Build_Subset dataset train_idx in
     let test_dataset := Build_Subset dataset test_idx in
     train_loader <- lift (make_loader train_dataset batch_size true) ;;
     test_loader <- lift (make_loader test_dataset batch_size false) ;;
     testing <- lift (MalwareDataset_init testing_benign_dir testing_malware_dir) ;;
     ' (train1_idx, val1_idx, test1_idx) <-
        make_idx testing (PyInt 1) (PyInt 0) ;;
     let val_dataset := Build_Subset testing val_idx in
     val_loader <- lift (make_loader val_dataset batch_size false) ;;
     ret (train_loader, val_loader, test_loader))%py.

(** *** Indexing *)

Lemma list_getitem_nonneg {A} (l : list A) (i : Z) :
  0 <= i < Z.of_nat (length l) ->
  exists a, nth_error l (Z.to_nat i) = Some a /\ list_getitem l i = Ok a.
Proof.
  intros Hi. unfold list_getitem.
  destruct (Z.ltb_spec i 0) as [Hneg|_]; [lia|].
  destruct (Z.ltb_spec i 0) as [Hneg|_]; [lia|].
  destruct (Z.leb_spec (Z.of_nat (length l)) i) as [Hge|_]; [lia|]. simpl.
  destruct (nth_error l (Z.to_nat i)) as [a|] eqn:E.
  - now exists a.
  - apply nth_error_None in E. lia.
Qed.

Lemma list_getitem_negative {A} (l : list A) (i : Z) :
  - Z.of_nat (length l) <= i < 0 ->
  exists a, nth_error l (Z.to_nat (i + Z.of_nat (length l))) = Some a /\
            list_getitem l i = Ok a.
Proof.
  intros Hi. unfold list_getitem.
  destruct (Z.ltb_spec i 0) as [_|Hpos]; [|lia].
  destruct (Z.ltb_spec (i + Z.of_nat (length l)) 0) as [Hneg|_]; [lia|].
  destruct (Z.leb_spec (Z.of_nat (length l)) (i + Z.of_nat (length l)))
    as [Hge|_]; [lia|]. simpl.
  destruct (nth_error l (Z.to_nat (i + Z.of_nat (length l)))) as [a|] eqn:E.
  - now exists a.
  - apply nth_error_None in E. lia.
Qed.

Lemma list_getitem_outside {A} (l : list A) (i : Z) :
  ~ (- Z.of_nat (length l) <= i < Z.of_nat (length l)) ->
  list_getitem l i = Err IndexError.
Proof.
  intros Hi. unfold list_getitem.
  destruct (Z.ltb_spec i 0) as [Hneg|Hpos].
  - destruct (Z.ltb_spec (i + Z.of_nat (length l)) 0) as [_|H]; [reflexivity|lia].
  - destruct (Z.ltb_spec i 0) as [H|_]; [lia|].
    destruct (Z.leb_spec (Z.of_nat (length l)) i) as [_|H]; [reflexivity|lia].
Qed.

Lemma list_getitem_ok_inside {A} (l : list A) (i : Z) (a : A) :
  list_getitem l i = Ok a ->
  - Z.of_nat (length l) <= i < Z.of_nat (length l).
Proof.
  intros H.
  destruct (Z_le_dec (- Z.of_nat (length l)) i) as [H1|H1];
    destruct (Z_lt_dec i (Z.of_nat (length l))) as [H2|H2]; try lia;
    rewrite list_getitem_outside in H by lia; discriminate.
Qed.

Lemma list_getitem_err {A} (l : list A) (i : Z) (e : exn) :
  list_getitem l i = Err e -> e = IndexError.
Proof.
  unfold list_getitem. intros H.
  destruct ((_ <? 0) || _); [congruence|].
  destruct (nth_error _ _); congruence.
Qed.

(** The benign branch of [__getitem__]: the first lookup succeeds. *)
Lemma getitem_benign (self : MalwareDataset) (index : Z) (f : string) :
  list_getitem (benign_files self) index = Ok f ->
  MalwareDataset_getitem self index =
    load_sample (path_join (benign_dir self) f) 0%float.
Proof. intros H. unfold MalwareDataset_getitem. now rewrite H. Qed.

(** The malware branch: the first lookup raised [IndexError]. *)
Lemma getitem_malware (self : MalwareDataset) (index : Z) (f : string) :
  list_getitem (benign_files self) index = Err IndexError ->
  list_getitem (malware_files self)
    (index - Z.of_nat (length (benign_files self))) = Ok f ->
  MalwareDataset_getitem self index =
    load_sample (path_join (malware_dir self) f) 1%float.
Proof. intros H1 H2. unfold MalwareDataset_getitem. now rewrite H1, H2. Qed.

(** Both lookups out of range: the [IndexError] of the second one leaves
    [__getitem__], and no file is read. *)
Lemma getitem_IndexError_outside (self : MalwareDataset) (i : Z) :
  let B := Z.of_nat (length (benign_files self)) in
  let M := Z.of_nat (length (malware_files self)) in
  ~ (- B <= i < B) -> ~ (- M <= i - B < M) ->
  MalwareDataset_getitem self i = Err IndexError.
Proof.
  intros B M H1 H2. unfold MalwareDataset_getitem.
  rewrite (list_getitem_outside (benign_files self) i) by exact H1.
  simpl. fold B.
  now rewrite (list_getitem_outside (malware_files self) (i - B)) by exact H2.
Qed.

(** C2: the dataset has B+M elements; an index in [0,B) is answered with
    the tensor read from the i-th benign file and the label 0.0, an index
    in [B,B+M) with the tensor read from the (i-B)-th malware file and the
    label 1.0 (and with the exception of the read when the file cannot be
    read). *)
Theorem getitem_union (self : MalwareDataset) (B M : nat) :
  length (benign_files self) = B ->
  length (malware_files self) = M ->
  MalwareDataset_len self = (B + M)%nat /\
  (forall i, 0 <= i < Z.of_nat B ->
     exists f, nth_error (benign_files self) (Z.to_nat i) = Some f /\
       MalwareDataset_getitem self i =
         match load_tensor (path_join (benign_dir self) f) with
         | Ok file_ => Ok (file_, 0%float)
         | Err e => Err e
         end) /\
  (forall i, Z.of_nat B <= i < Z.of_nat B + Z.of_nat M ->
     exists f,
       nth_error (malware_files self) (Z.to_nat (i - Z.of_nat B)) = Some f /\
       MalwareDataset_getitem self i =
         match load_tensor (path_join (malware_dir self) f) with
         | Ok file_ => Ok (file_, 1%float)
         | Err e => Err e
         end).
Proof.
  intros HB HM. split; [|split].
  - unfold MalwareDataset_len. now rewrite HB, HM.
  - intros i Hi.
    destruct (list_getitem_nonneg (benign_files self) i) as (f & Hn & Hg);
      [lia|].
    exists f. split; [exact Hn|]. now rewrite (getitem_benign _ _ _ Hg).
  - intros i Hi.
    destruct (list_getitem_nonneg (malware_files self) (i - Z.of_nat B))
      as (f & Hn & Hg); [lia|].
    exists f. split; [exact Hn|]. rewrite (getitem_malware _ _ f).
    + reflexivity.
    + apply list_getitem_outside. lia.
    + now rewrite HB.
Qed.

(** C3, as the code has it: [__getitem__] raises [IndexError] for every
    index at or past the length and for every index below both -B and
    B - M (so for every index below minus the length), and then no file is
    read.  The other negative indices are not errors, they wrap around as
    list indices do: an index in [-B,0) is answered with the tensor read
    from benign file B+index and the label 0.0, an index in [B-M,-B) with
    the tensor read from malware file M+index-B and the label 1.0. *)
Theorem getitem_index_error (self : MalwareDataset) (i : Z) :
  let B := Z.of_nat (length (benign_files self)) in
  let M := Z.of_nat (length (malware_files self)) in
  let len := Z.of_nat (MalwareDataset_len self) in
  (len <= i -> MalwareDataset_getitem self i = Err IndexError) /\
  (i < - B -> i < B - M -> MalwareDataset_getitem self i = Err IndexError) /\
  (i < - len -> MalwareDataset_getitem self i = Err IndexError) /\
  (- B <= i < 0 ->
     exists f, nth_error (benign_files self) (Z.to_nat (i + B)) = Some f /\
       MalwareDataset_getitem self i =
         match load_tensor (path_join (benign_dir self) f) with
         | Ok file_ => Ok (file_, 0%float)
         | Err e => Err e
         end) /\
  (B - M <= i < - B ->
     exists f,
       nth_error (malware_files self) (Z.to_nat (i - B + M)) = Some f /\
       MalwareDataset_getitem self i =
         match load_tensor (path_join (malware_dir self) f) with
         | Ok file_ => Ok (file_, 1%float)
         | Err e => Err e
         end).
Proof.
  intros B M len.
  assert (Hlen : len = B + M).
  { unfold len, MalwareDataset_len. now rewrite Nat2Z.inj_add. }
  split; [|split; [|split; [|split]]].
  - intros Hi. apply getitem_IndexError_outside; fold B; fold M; lia.
  - intros H1 H2. apply getitem_IndexError_outside; fold B; fold M; lia.
  - intros Hi. apply getitem_IndexError_outside; fold B; fold M; lia.
  - intros Hi.
    destruct (list_getitem_negative (benign_files self) i) as (f & Hn & Hg);
      [fold B; lia|].
    exists f. split; [exact Hn|]. now rewrite (getitem_benign _ _ _ Hg).
  - intros Hi.
    destruct (list_getitem_negative (malware_files self) (i - B))
      as (f & Hn & Hg); [fold M; lia|].
    exists f. split; [exact Hn|].
    rewrite (getitem_malware _ _ f); [reflexivity| |exact Hg].
    apply list_getitem_outside. fold B. lia.
Qed.

(** *** The splitter *)

Lemma bind_Ok {S A B} (m : M S A) (k : A -> M S B) (s s' : S) (b : B) :
  bind m k s = (Ok b, s') ->
  exists a s1, m s = (Ok a, s1) /\ k a s1 = (Ok b, s').
Proof.
  unfold bind. destruct (m s) as [[a|e] s1]; intros H.
  - now exists a, s1.
  - discriminate.
Qed.

Lemma range_length (lo hi : nat) : length (range lo hi) = (hi - lo)%nat.
Proof. unfold range. now rewrite length_map, length_seq. Qed.

Lemma range_In (lo hi : nat) (i : Z) :
  In i (range lo hi) <-> Z.of_nat lo <= i < Z.of_nat hi.
Proof.
  unfold range. rewrite in_map_iff. split.
  - intros (k & <- & Hk). apply in_seq in Hk. lia.
  - intros Hi. exists (Z.to_nat i). split; [lia|]. apply in_seq. lia.
Qed.

Lemma range_NoDup (lo hi : nat) : NoDup (range lo hi).
Proof.
  unfold range. apply Finite.Injective_map_NoDup; [|apply seq_NoDup].
  intros x y. apply Nat2Z.inj.
Qed.

Lemma range_app (lo mid hi : nat) :
  (lo <= mid <= hi)%nat -> range lo mid ++ range mid hi = range lo hi.
Proof.
  intros H. unfold range. rewrite <- map_app.
  replace (hi - lo)%nat with ((mid - lo) + (hi - mid))%nat by lia.
  rewrite seq_app. now replace (lo + (mid - lo))%nat with mid by lia.
Qed.

Lemma NoDup_app_disjoint {A} (l1 l2 : list A) :
  NoDup (l1 ++ l2) -> forall x, In x l1 -> ~ In x l2.
Proof.
  induction l1 as [|a l1 IH]; simpl; intros H x Hx; [contradiction|].
  inversion H as [|? ? Hna Hnd]; subst. destruct Hx as [->|Hx].
  - intros Hin. apply Hna. apply in_or_app. now right.
  - now apply IH.
Qed.

Lemma concat_parts_permutation {A} (a1 a2 b1 b2 c1 c2 : list A) :
  Permutation ((a1 ++ a2) ++ (b1 ++ b2) ++ (c1 ++ c2))
              ((a1 ++ b1 ++ c1) ++ (a2 ++ b2 ++ c2)).
Proof.
  rewrite <- !app_assoc. apply Permutation_app_head.
  etransitivity; [apply Permutation_app_swap_app|].
  apply Permutation_app_head.
  symmetry. etransitivity; [apply Permutation_app_swap_app|].
  apply Permutation_app_head. apply Permutation_app_swap_app.
Qed.

(** What [train_val_test_split] and [make_idx] return, call by call. *)
Lemma train_val_test_split_Ok idx val_size test_size shuffle s
      train_idx val_idx test_idx s' :
  train_val_test_split idx val_size test_size shuffle s =
    (Ok (train_idx, val_idx, test_idx), s') ->
  exists tv_idx s1,
    split idx test_size shuffle s = (Ok (tv_idx, test_idx), s1) /\
    split tv_idx val_size shuffle s1 = (Ok (train_idx, val_idx), s').
Proof.
  unfold train_val_test_split. intros H.
  apply bind_Ok in H as ([tv te] & s1 & H1 & H).
  apply bind_Ok in H as ([tr va] & s2 & H2 & H).
  unfold ret in H. inversion H; subst. now exists tv, s1.
Qed.

Lemma make_idx_Ok dataset val_size test_size s train_idx val_idx test_idx s' :
  make_idx dataset val_size test_size s =
    (Ok (train_idx, val_idx, test_idx), s') ->
  let B := length (benign_files dataset) in
  let M := length (malware_files dataset) in
  exists btr bva bte mtr mva mte s1,
    train_val_test_split (range 0 B) val_size test_size true s =
      (Ok (btr, bva, bte), s1) /\
    train_val_test_split (range B (B + M)) val_size test_size true s1 =
      (Ok (mtr, mva, mte), s') /\
    train_idx = btr ++ mtr /\ val_idx = bva ++ mva /\ test_idx = bte ++ mte.
Proof.
  intros H B M. unfold make_idx in H.
  apply bind_Ok in H as ([[btr bva] bte] & s1 & H1 & H).
  apply bind_Ok in H as ([[mtr mva] mte] & s2 & H2 & H).
  unfold ret in H. inversion H; subst.
  now exists btr, bva, bte, mtr, mva, mte, s1.
Qed.

(** The primitive's contract: the two parts it returns are a
    rearrangement of the indices it was given. *)
Hypothesis train_test_split_permutes :
  forall idx test_size shuffle s tr te s',
    train_test_split idx test_size shuffle s = (Some (tr, te), s') ->
    Permutation (tr ++ te) idx.

Lemma split_permutes idx test_size shuffle s tr te s' :
  split idx test_size shuffle s = (Ok (tr, te), s') ->
  Permutation (tr ++ te) idx.
Proof.
  unfold split. intros H.
  destruct (train_test_split idx test_size shuffle s) as [[p|] s1] eqn:E;
    [|discriminate].
  inversion H; subst. now apply train_test_split_permutes in E.
Qed.

Lemma train_val_test_split_permutes idx val_size test_size shuffle s
      tr va te s' :
  train_val_test_split idx val_size test_size shuffle s =
    (Ok (tr, va, te), s') ->
  Permutation (tr ++ va ++ te) idx.
Proof.
  intros H. apply train_val_test_split_Ok in H as (tv & s1 & H1 & H2).
  apply split_permutes in H1, H2.
  rewrite app_assoc. rewrite H2. exact H1.
Qed.

Lemma make_idx_permutes dataset val_size test_size s tr va te s' :
  make_idx dataset val_size test_size s = (Ok (tr, va, te), s') ->
  Permutation (tr ++ va ++ te)
    (range 0 (MalwareDataset_len dataset)).
Proof.
  intros H.
  apply make_idx_Ok in H
    as (btr & bva & bte & mtr & mva & mte & s1 & H1 & H2 & -> & -> & ->).
  apply train_val_test_split_permutes in H1, H2.
  unfold MalwareDataset_len.
  rewrite <- (range_app 0 (length (benign_files dataset))) by lia.
  rewrite <- H1, <- H2. apply concat_parts_permutation.
Qed.

(** C4: the three index lists [make_idx] returns have B+M elements in
    all, no index occurs in two of them, and together they hold exactly
    the indices 0 .. B+M-1. *)
Theorem make_idx_partition dataset val_size test_size s
        train_idx val_idx test_idx s' :
  make_idx dataset val_size test_size s =
    (Ok (train_idx, val_idx, test_idx), s') ->
  (length train_idx + length val_idx + length test_idx =
     length (benign_files dataset) + length (malware_files dataset))%nat /\
  (forall i, In i train_idx -> ~ In i val_idx) /\
  (forall i, In i train_idx -> ~ In i test_idx) /\
  (forall i, In i val_idx -> ~ In i test_idx) /\
  (forall i, In i train_idx \/ In i val_idx \/ In i test_idx <->
             0 <= i < Z.of_nat (MalwareDataset_len dataset)).
Proof.
  intros H. apply make_idx_permutes in H.
  assert (Hnd : NoDup (train_idx ++ val_idx ++ test_idx)).
  { apply (Permutation_NoDup (Permutation_sym H)). apply range_NoDup. }
  split; [|split; [|split; [|split]]].
  - apply Permutation_length in H.
    rewrite !length_app, range_length in H.
    unfold MalwareDataset_len in H. lia.
  - intros i Ht Hv.
    apply (NoDup_app_disjoint _ _ Hnd i Ht). apply in_or_app. now left.
  - intros i Ht He.
    apply (NoDup_app_disjoint _ _ Hnd i Ht). apply in_or_app. now right.
  - intros i Hv.
    apply (NoDup_app_disjoint _ _ (NoDup_app_remove_l _ _ Hnd) i Hv).
  - intros i. rewrite <- !in_app_iff. change 0 with (Z.of_nat 0).
    rewrite <- range_In. split; intros Hi.
    + now apply (Permutation_in _ H).
    + now apply (Permutation_in _ (Permutation_sym H)).
Qed.

(** *** Stratification *)

(** The indices of benign origin are those below the number of benign
    files; the others are of malware origin. *)
Definition benign_origin (dataset : MalwareDataset) (i : Z) : bool :=
  i <? Z.of_nat (length (benign_files dataset)).

Definition count_benign (dataset : MalwareDataset) (idx : list Z) : nat :=
  length (filter (benign_origin dataset) idx).

Definition count_malware (dataset : MalwareDataset) (idx : list Z) : nat :=
  length (filter (fun i => negb (benign_origin dataset i)) idx).

Lemma filter_all {A} (p : A -> bool) (l : list A) :
  (forall x, In x l -> p x = true) -> filter p l = l.
Proof.
  induction l as [|a l IH]; simpl; intros H; [reflexivity|].
  rewrite (H a) by now left. f_equal. apply IH. intros x Hx. apply H. now right.
Qed.

Lemma filter_none {A} (p : A -> bool) (l : list A) :
  (forall x, In x l -> p x = false) -> filter p l = [].
Proof.
  induction l as [|a l IH]; simpl; intros H; [reflexivity|].
  rewrite (H a) by now left. apply IH. intros x Hx. apply H. now right.
Qed.

(** The held-out part of a split comes from the range that was split. *)
Lemma train_val_test_split_test_In idx val_size test_size shuffle s
      tr va te s' :
  train_val_test_split idx val_size test_size shuffle s =
    (Ok (tr, va, te), s') ->
  forall i, In i te -> In i idx.
Proof.
  intros H i Hi. apply train_val_test_split_permutes in H.
  apply (Permutation_in _ H). rewrite !in_app_iff. auto.
Qed.

Lemma make_idx_test_counts dataset val_size test_size s tr va te s' :
  make_idx dataset val_size test_size s = (Ok (tr, va, te), s') ->
  exists bte mte tv1 tv2 s0 s1 s2,
    te = bte ++ mte /\
    count_benign dataset te = length bte /\
    count_malware dataset te = length mte /\
    split (range 0 (length (benign_files dataset))) test_size true s =
      (Ok (tv1, bte), s0) /\
    split (range (length (benign_files dataset))
                 (length (benign_files dataset) +
                  length (malware_files dataset))) test_size true s1 =
      (Ok (tv2, mte), s2).
Proof.
  intros H.
  apply make_idx_Ok in H
    as (btr & bva & bte & mtr & mva & mte & s1 & H1 & H2 & -> & -> & ->).
  pose proof (train_val_test_split_test_In _ _ _ _ _ _ _ _ _ H1) as Hb.
  pose proof (train_val_test_split_test_In _ _ _ _ _ _ _ _ _ H2) as Hm.
  apply train_val_test_split_Ok in H1 as (tv1 & s0 & H1 & _).
  apply train_val_test_split_Ok in H2 as (tv2 & s2 & H2 & _).
  exists bte, mte, tv1, tv2, s0, s1, s2.
  assert (Hbo : forall i, In i bte -> benign_origin dataset i = true).
  { intros i Hi. apply Hb, range_In in Hi. unfold benign_origin.
    apply Z.ltb_lt. lia. }
  assert (Hmo : forall i, In i mte -> benign_origin dataset i = false).
  { intros i Hi. apply Hm, range_In in Hi. unfold benign_origin.
    apply Z.ltb_ge. lia. }
  split; [reflexivity|]. unfold count_benign, count_malware.
  rewrite !filter_app, !length_app.
  rewrite (filter_all _ bte Hbo), (filter_none _ mte Hmo).
  rewrite (filter_none _ bte), (filter_all _ mte).
  - simpl. repeat split; try lia; assumption.
  - intros i Hi. now rewrite (Hmo i Hi).
  - intros i Hi. now rewrite (Hbo i Hi).
Qed.

(** [py_ceil] is the ceiling of the exact value [z * 2^e] of a finite float. *)
Lemma py_ceil_is_ceiling (x : float) (s : bool) (m : positive) (e k : Z) :
  Prim2SF x = S754_finite s m e ->
  py_ceil x = Some k ->
  let z := if s then Z.neg m else Z.pos m in
  (0 <= e -> k = z * 2 ^ e) /\
  (e < 0 -> (k - 1) * 2 ^ (- e) < z <= k * 2 ^ (- e)).
Proof.
  intros Hx Hk z. unfold py_ceil in Hk. rewrite Hx in Hk. fold z in Hk.
  destruct (Z.leb_spec 0 e) as [He|He]; inversion Hk; subst; split;
    intros He'; try lia.
  assert (Hd : 0 < 2 ^ (- e)) by (apply Z.pow_pos_nonneg; lia).
  pose proof (Z.div_mod (- z) (2 ^ (- e)) ltac:(lia)) as Hdm.
  pose proof (Z.mod_pos_bound (- z) (2 ^ (- e)) Hd) as Hb.
  nia.
Qed.

(** The fraction 0.2 as Python reads it (the nearest binary64 value). *)
Definition fraction_0_2 : float := 0x1.999999999999ap-3%float.

(** The primitive's size rule: the held-out part has [n_test_of] elements. *)
Hypothesis train_test_split_size :
  forall idx test_size shuffle s tr te s',
    train_test_split idx test_size shuffle s = (Some (tr, te), s') ->
    n_test_of test_size (length idx) = Some (Z.of_nat (length te)).

Lemma split_size idx test_size shuffle s tr te s' :
  split idx test_size shuffle s = (Ok (tr, te), s') ->
  n_test_of test_size (length idx) = Some (Z.of_nat (length te)).
Proof.
  unfold split. intros H.
  destruct (train_test_split idx test_size shuffle s) as [[p|] s1] eqn:E;
    [|discriminate].
  inversion H; subst. now apply train_test_split_size in E.
Qed.

(** C5: the benign range and the malware range are split on their own
    with the same fraction, so [test_idx] holds as many indices of benign
    origin as the primitive holds out of B elements, and as many of
    malware origin as it holds out of M elements; with 100 benign and 100
    malware files and test fraction 0.2 these are 20 and 20. *)
Theorem make_idx_stratified dataset val_size test_size s
        train_idx val_idx test_idx s' :
  make_idx dataset val_size test_size s =
    (Ok (train_idx, val_idx, test_idx), s') ->
  let B := length (benign_files dataset) in
  let M := length (malware_files dataset) in
  n_test_of test_size B = Some (Z.of_nat (count_benign dataset test_idx)) /\
  n_test_of test_size M = Some (Z.of_nat (count_malware dataset test_idx)) /\
  (B = 100%nat -> M = 100%nat -> test_size = PyFloat fraction_0_2 ->
   count_benign dataset test_idx = 20%nat /\
   count_malware dataset test_idx = 20%nat).
Proof.
  intros H B M.
  apply make_idx_test_counts in H
    as (bte & mte & tv1 & tv2 & s0 & s1 & s2 & -> & Hcb & Hcm & H1 & H2).
  apply split_size in H1, H2. rewrite range_length in H1, H2.
  fold B in H1, H2. fold M in H2.
  replace (B - 0)%nat with B in H1 by lia.
  replace (B + M - B)%nat with M in H2 by lia.
  rewrite Hcb, Hcm. split; [exact H1|]. split; [exact H2|].
  intros HB HM Ht. rewrite HB, Ht in H1. rewrite HM, Ht in H2.
  assert (E : n_test_of (PyFloat fraction_0_2) 100 = Some 20)
    by (vm_compute; reflexivity).
  rewrite E in H1, H2. inversion H1. inversion H2. lia.
Qed.

(** *** The loader factory *)

Lemma bind_Err {S A B} (m : M S A) (k : A -> M S B) (s s' : S) (e : exn) :
  bind m k s = (Err e, s') ->
  m s = (Err e, s') \/ exists a s1, m s = (Ok a, s1) /\ k a s1 = (Err e, s').
Proof.
  unfold bind. destruct (m s) as [[a|e0] s1]; intros H.
  - right. now exists a, s1.
  - left. inversion H; subst. reflexivity.
Qed.

Lemma MalwareDataset_init_Err benign_dir malware_dir e :
  MalwareDataset_init benign_dir malware_dir = Err e ->
  exists path, e = OSError path.
Proof.
  unfold MalwareDataset_init, os_listdir. intros H.
  destruct (listdir benign_dir); [|inversion H; eauto].
  destruct (listdir malware_dir); [discriminate|inversion H; eauto].
Qed.

Lemma split_Err idx test_size shuffle s e s' :
  split idx test_size shuffle s = (Err e, s') -> e = SplitError.
Proof.
  unfold split. destruct (train_test_split idx test_size shuffle s) as [[p|] s1];
    intros H; inversion H; reflexivity.
Qed.

Lemma train_val_test_split_Err idx val_size test_size shuffle s e s' :
  train_val_test_split idx val_size test_size shuffle s = (Err e, s') ->
  e = SplitError.
Proof.
  unfold train_val_test_split. intros H.
  apply bind_Err in H as [H|([tv te] & s1 & _ & H)];
    [now apply split_Err in H|].
  apply bind_Err in H as [H|([tr va] & s2 & _ & H)];
    [now apply split_Err in H|].
  discriminate.
Qed.

Lemma make_idx_Err dataset val_size test_size s e s' :
  make_idx dataset val_size test_size s = (Err e, s') -> e = SplitError.
Proof.
  unfold make_idx. intros H.
  apply bind_Err in H as [H|([[btr bva] bte] & s1 & _ & H)];
    [now apply train_val_test_split_Err in H|].
  apply bind_Err in H as [H|([[mtr mva] mte] & s2 & _ & H)];
    [now apply train_val_test_split_Err in H|].
  discriminate.
Qed.

Lemma make_loader_Err dataset batch_size shuffle e :
  make_loader dataset batch_size shuffle = Err e -> e = DataLoaderError.
Proof.
  unfold make_loader. destruct (_ || _); intros H; inversion H; reflexivity.
Qed.

Lemma make_loader_Ok dataset batch_size shuffle loader :
  make_loader dataset batch_size shuffle = Ok loader ->
  loader = Build_DataLoader dataset batch_size shuffle /\ 0 < batch_size.
Proof.
  unfold make_loader. destruct (Z.leb_spec batch_size 0) as [Hb|Hb]; simpl.
  - discriminate.
  - destruct (_ && _); intros E; inversion E. split; [reflexivity|lia].
Qed.

Lemma lift_Err {S A} (r : result A) (s s' : S) (e : exn) :
  lift r s = (Err e, s') -> r = Err e /\ s' = s.
Proof. unfold lift. intros H. inversion H; subst. auto. Qed.

Lemma lift_Ok {S A} (r : result A) (s s' : S) (a : A) :
  lift r s = (Ok a, s') -> r = Ok a /\ s' = s.
Proof. unfold lift. intros H. inversion H; subst. auto. Qed.

(** C9: [make_loaders] first adds the two fractions; when the sum is at
    least 1 it raises its error at once, whatever the directories hold and
    whatever the primitive would do, and the random state is untouched;
    when the sum is below 1 this error is not raised. *)
Theorem make_loaders_fraction_check (benign_dir malware_dir : string)
        (batch_size : Z) (val_size test_size : float) (s : rng) :
  ((1 <=? val_size + test_size)%float = true ->
   make_loaders benign_dir malware_dir batch_size val_size test_size s =
     (Err (FractionsError (val_size + test_size)%float), s)) /\
  ((1 <=? val_size + test_size)%float = false ->
   forall x,
     fst (make_loaders benign_dir malware_dir batch_size val_size test_size s)
     <> Err (FractionsError x)).
Proof.
  unfold make_loaders. split; intros Hsum; rewrite Hsum; [reflexivity|].
  intros x Hx.
  destruct (bind _ _ s) as [r s'] eqn:E. simpl in Hx. subst r.
  apply bind_Err in E as [E|(dataset & s1 & _ & E)].
  { apply lift_Err in E as [E1 _].
    apply MalwareDataset_init_Err in E1 as (path & E1). discriminate. }
  apply bind_Err in E as [E|([[tr va] te] & s2 & _ & E)];
    [apply make_idx_Err in E; discriminate|].
  apply bind_Err in E as [E|(train_loader & s3 & _ & E)];
    [apply lift_Err in E as [E _]; apply make_loader_Err in E; discriminate|].
  apply bind_Err in E as [E|(test_loader & s4 & _ & E)];
    [apply lift_Err in E as [E _]; apply make_loader_Err in E; discriminate|].
  apply bind_Err in E as [E|(testing & s5 & _ & E)].
  { apply lift_Err in E as [E1 _].
    apply MalwareDataset_init_Err in E1 as (path & E1). discriminate. }
  apply bind_Err in E as [E|([[tr1 va1] te1] & s6 & _ & E)];
    [apply make_idx_Err in E; discriminate|].
  apply bind_Err in E as [E|(val_loader & s7 & _ & E)];
    [apply lift_Err in E as [E _]; apply make_loader_Err in E; discriminate|].
  discriminate.
Qed.

(** What [make_loaders] returns when it returns: the train and test
    loaders view the dataset of the two given directories, the validation
    loader views the second dataset, through the first one's [val_idx]. *)
Lemma make_loaders_Ok benign_dir malware_dir batch_size val_size test_size
      s train_loader val_loader test_loader s' :
  make_loaders benign_dir malware_dir batch_size val_size test_size s =
    (Ok (train_loader, val_loader, test_loader), s') ->
  exists dataset testing train_idx val_idx test_idx s1,
    MalwareDataset_init benign_dir malware_dir = Ok dataset /\
    MalwareDataset_init testing_benign_dir testing_malware_dir = Ok testing /\
    make_idx dataset (PyFloat val_size) (PyFloat test_size) s =
      (Ok (train_idx, val_idx, test_idx), s1) /\
    train_loader =
      Build_DataLoader (Build_Subset dataset train_idx) batch_size true /\
    val_loader =
      Build_DataLoader (Build_Subset testing val_idx) batch_size false /\
    test_loader =
      Build_DataLoader (Build_Subset dataset test_idx) batch_size false.
Proof.
  unfold make_loaders. intros H.
  destruct (1 <=? val_size + test_size)%float; [discriminate|].
  apply bind_Ok in H as (dataset & s0 & H0 & H).
  apply bind_Ok in H as ([[tr va] te] & s1 & H1 & H).
  apply bind_Ok in H as (l1 & s2 & L1 & H).
  apply bind_Ok in H as (l2 & s3 & L2 & H).
  apply bind_Ok in H as (testing & s4 & H2 & H).
  apply bind_Ok in H as ([[tr1 va1] te1] & s5 & H3 & H).
  apply bind_Ok in H as (l3 & s6 & L3 & H).
  exists dataset, testing, tr, va, te, s1.
  apply lift_Ok in H0 as [H0 ->]. apply lift_Ok in H2 as [H2 ->].
  apply lift_Ok in L1 as [L1 ->]. apply lift_Ok in L2 as [L2 ->].
  apply lift_Ok in L3 as [L3 ->].
  apply make_loader_Ok in L1 as [-> _]. apply make_loader_Ok in L2 as [-> _].
  apply make_loader_Ok in L3 as [-> _].
  unfold ret in H. inversion H; subst.
  repeat split; assumption.
Qed.

End Program.

(** ** The collator *)

Section Collator.

Lemma set_row_length (out : tensor2) (i : nat) (r : list Z) :
  length (set_row out i r) = length out.
Proof.
  revert i. induction out as [|r0 out IH]; intros [|i]; simpl; congruence.
Qed.

Lemma nth_error_set_row_same (out : tensor2) (i : nat) (r : list Z) :
  (i < length out)%nat -> nth_error (set_row out i r) i = Some r.
Proof.
  revert i. induction out as [|r0 out IH]; intros [|i] H; simpl in *;
    try lia; [reflexivity|]. apply IH. lia.
Qed.

Lemma nth_error_set_row_other (out : tensor2) (i j : nat) (r : list Z) :
  i <> j -> nth_error (set_row out i r) j = nth_error out j.
Proof.
  revert i j. induction out as [|r0 out IH]; intros [|i] [|j] H; simpl;
    try reflexivity; try congruence. apply IH. congruence.
Qed.

Lemma assign_row_prefix_length (out : tensor2) (i k : nat) (src : list Z) :
  length (assign_row_prefix out i k src) = length out.
Proof.
  unfold assign_row_prefix. destruct (nth_error out i); [|reflexivity].
  apply set_row_length.
Qed.

Lemma assign_row_prefix_same (out : tensor2) (i k : nat) (src row : list Z) :
  nth_error out i = Some row ->
  nth_error (assign_row_prefix out i k src) i = Some (slice_assign row k src).
Proof.
  intros H. unfold assign_row_prefix. rewrite H.
  apply nth_error_set_row_same. apply nth_error_Some. congruence.
Qed.

Lemma assign_row_prefix_other (out : tensor2) (i j k : nat) (src : list Z) :
  i <> j -> nth_error (assign_row_prefix out i k src) j = nth_error out j.
Proof.
  intros H. unfold assign_row_prefix. destruct (nth_error out i); [|reflexivity].
  now apply nth_error_set_row_other.
Qed.

(** One turn of the loop of [pad_sequence]. *)
Definition pad_step (max_len i : nat) (t : tensor) (out : tensor2) : tensor2 :=
  if (length t <? max_len)%nat
  then assign_row_prefix out i (length t) t
  else assign_row_prefix out i max_len (firstn max_len t).

Lemma pad_rows_cons (max_len i : nat) (t : tensor) (rest : list tensor)
      (out : tensor2) :
  pad_rows max_len i (t :: rest) out =
    pad_rows max_len (S i) rest (pad_step max_len i t out).
Proof. reflexivity. Qed.

Lemma pad_step_length max_len i t out :
  length (pad_step max_len i t out) = length out.
Proof.
  unfold pad_step. destruct (_ <? _)%nat; apply assign_row_prefix_length.
Qed.

Lemma pad_step_other max_len i j t out :
  i <> j -> nth_error (pad_step max_len i t out) j = nth_error out j.
Proof.
  intros H. unfold pad_step.
  destruct (_ <? _)%nat; now apply assign_row_prefix_other.
Qed.

(** The row a turn writes depends on that row only. *)
Lemma pad_step_row_congr max_len j t (out1 out2 : tensor2) :
  nth_error out1 j = nth_error out2 j ->
  nth_error (pad_step max_len j t out1) j =
    nth_error (pad_step max_len j t out2) j.
Proof.
  intros H. unfold pad_step.
  destruct (_ <? _)%nat; destruct (nth_error out2 j) as [row|] eqn:E.
  - rewrite (assign_row_prefix_same out1 _ _ _ row) by congruence.
    now rewrite (assign_row_prefix_same out2 _ _ _ row).
  - unfold assign_row_prefix. rewrite E. rewrite H at 1. rewrite E. exact H.
  - rewrite (assign_row_prefix_same out1 _ _ _ row) by congruence.
    now rewrite (assign_row_prefix_same out2 _ _ _ row).
  - unfold assign_row_prefix. rewrite E. rewrite H at 1. rewrite E. exact H.
Qed.

Lemma pad_rows_length max_len sequences :
  forall i out, length (pad_rows max_len i sequences out) = length out.
Proof.
  induction sequences as [|t rest IH]; intros i out; [reflexivity|].
  rewrite pad_rows_cons, IH. apply pad_step_length.
Qed.

(** The loop leaves the rows before its current one as they are. *)
Lemma pad_rows_before max_len sequences :
  forall i out j, (j < i)%nat ->
    nth_error (pad_rows max_len i sequences out) j = nth_error out j.
Proof.
  induction sequences as [|t rest IH]; intros i out j Hj; [reflexivity|].
  rewrite pad_rows_cons, IH by lia. apply pad_step_other. lia.
Qed.

(** Row [i + k] ends as the turn for the [k]-th sequence leaves it. *)
Lemma pad_rows_row max_len sequences :
  forall i out k t,
    nth_error sequences k = Some t ->
    nth_error (pad_rows max_len i sequences out) (i + k) =
      nth_error (pad_step max_len (i + k) t out) (i + k).
Proof.
  induction sequences as [|t0 rest IH]; intros i out k t Hk.
  - destruct k; discriminate.
  - rewrite pad_rows_cons. destruct k as [|k]; simpl in Hk.
    + inversion Hk; subst. rewrite Nat.add_0_r.
      apply pad_rows_before. lia.
    + replace (i + S k)%nat with (S i + k)%nat by lia.
      rewrite (IH (S i) _ k t Hk).
      apply pad_step_row_congr. apply pad_step_other. lia.
Qed.

Lemma skipn_repeat (v : Z) (n m : nat) :
  skipn n (repeat v m) = repeat v (m - n).
Proof.
  revert m. induction n as [|n IH]; intros [|m]; simpl; try reflexivity.
  apply IH.
Qed.

(** The row [pad_sequence] gives a sample: the sample followed by the
    padding value up to [max_len], or the sample's first [max_len] values. *)
Definition padded (max_len : nat) (padding_value : Z) (t : tensor) : list Z :=
  if (length t <? max_len)%nat
  then t ++ repeat padding_value (max_len - length t)
  else firstn max_len t.

Lemma pad_sequence_row (sequences : list tensor) (max_len : nat)
      (padding_value : Z) (k : nat) (t : tensor) :
  nth_error sequences k = Some t ->
  exists out,
    pad_sequence sequences (Some max_len) padding_value = Ok out /\
    length out = length sequences /\
    nth_error out k = Some (padded max_len padding_value t).
Proof.
  intros Hk. unfold pad_sequence.
  destruct sequences as [|t0 rest] eqn:Es; [destruct k; discriminate|].
  rewrite <- Es in *. eexists. split; [reflexivity|]. split.
  - rewrite pad_rows_length. unfold new_full. apply repeat_length.
  - rewrite (pad_rows_row max_len sequences 0 _ k t Hk). simpl.
    assert (Hrow : nth_error (new_full (length sequences) max_len padding_value) k
                   = Some (repeat padding_value max_len)).
    { unfold new_full. apply nth_error_repeat. apply nth_error_Some. congruence. }
    unfold pad_step, padded. destruct (length t <? max_len)%nat eqn:E.
    + rewrite (assign_row_prefix_same _ _ _ _ _ Hrow). unfold slice_assign.
      now rewrite skipn_repeat.
    + rewrite (assign_row_prefix_same _ _ _ _ _ Hrow). unfold slice_assign.
      rewrite skipn_repeat, Nat.sub_diag. simpl. now rewrite app_nil_r.
Qed.

Lemma collate_fn_row (batch : list (tensor * float)) (k : nat) (x : tensor)
      (y : float) :
  nth_error batch k = Some (x, y) ->
  exists xs,
    collate_fn batch = Ok (xs, map snd batch) /\
    length xs = length batch /\
    nth_error xs k = Some (padded 4096 256 x).
Proof.
  intros Hk.
  destruct (pad_sequence_row (map fst batch) 4096 256 k x)
    as (out & Hout & Hlen & Hrow).
  { rewrite nth_error_map, Hk. reflexivity. }
  exists out. unfold collate_fn. rewrite Hout.
  rewrite length_map in Hlen. auto.
Qed.

(** C7: a sample shorter than 4096 gets a row of width 4096 that starts
    with the sample and continues with 256 up to the end. *)
Theorem collate_fn_pads (batch : list (tensor * float)) (k : nat)
        (x : tensor) (y : float) :
  nth_error batch k = Some (x, y) ->
  (length x < 4096)%nat ->
  exists xs ys row,
    collate_fn batch = Ok (xs, ys) /\
    nth_error xs k = Some row /\
    length row = 4096%nat /\
    firstn (length x) row = x /\
    skipn (length x) row = repeat 256 (4096 - length x).
Proof.
  intros Hk HL.
  destruct (collate_fn_row batch k x y Hk) as (xs & Hc & _ & Hrow).
  exists xs, (map snd batch), (padded 4096 256 x).
  unfold padded in *. apply Nat.ltb_lt in HL. rewrite HL in *.
  apply Nat.ltb_lt in HL.
  split; [exact Hc|]. split; [exact Hrow|]. split; [|split].
  - rewrite length_app, repeat_length. lia.
  - rewrite firstn_app, Nat.sub_diag, firstn_all. simpl. apply app_nil_r.
  - rewrite skipn_app, Nat.sub_diag, skipn_all. reflexivity.
Qed.

(** C8: a sample of 4096 values or more gets as its row its own first
    4096 values; every value of the row is a value of the sample, so the
    padding value is in the row only if the sample held it. *)
Theorem collate_fn_truncates (batch : list (tensor * float)) (k : nat)
        (x : tensor) (y : float) :
  nth_error batch k = Some (x, y) ->
  (4096 <= length x)%nat ->
  exists xs ys row,
    collate_fn batch = Ok (xs, ys) /\
    nth_error xs k = Some row /\
    row = firstn 4096 x /\
    length row = 4096%nat /\
    (forall z, In z row -> In z x) /\
    (~ In 256 x -> ~ In 256 row).
Proof.
  intros Hk HL.
  destruct (collate_fn_row batch k x y Hk) as (xs & Hc & _ & Hrow).
  exists xs, (map snd batch), (firstn 4096 x).
  unfold padded in Hrow.
  assert (E : (length x <? 4096)%nat = false) by (apply Nat.ltb_ge; exact HL).
  rewrite E in Hrow.
  assert (Hin : forall z, In z (firstn 4096 x) -> In z x).
  { intros z Hz. rewrite <- (firstn_skipn 4096 x). apply in_or_app. now left. }
  split; [exact Hc|]. split; [exact Hrow|]. split; [reflexivity|].
  split; [now apply firstn_length_le|]. split; [exact Hin|].
  intros Hn Hp. apply Hn, Hin, Hp.
Qed.

(** C10: on the empty batch [pad_sequence] reads [sequences[0]] of an
    empty list and [collate_fn] fails with [IndexError]; a batch that is
    not empty is collated into as many rows as it has samples. *)
Theorem collate_fn_empty_batch :
  collate_fn [] = Err IndexError /\
  pad_sequence [] (Some 4096%nat) 256 = Err IndexError /\
  (forall batch, is_ok (collate_fn batch) = false <-> batch = []) /\
  (forall batch xs ys, collate_fn batch = Ok (xs, ys) ->
     batch <> [] /\ length xs = length batch).
Proof.
  assert (Hne : forall p batch, exists xs,
             collate_fn (p :: batch) = Ok (xs, map snd (p :: batch)) /\
             length xs = length (p :: batch)).
  { intros [x y] batch.
    destruct (collate_fn_row ((x, y) :: batch) 0 x y eq_refl)
      as (xs & Hc & Hlen & _).
    now exists xs. }
  split; [reflexivity|]. split; [reflexivity|]. split.
  - intros [|p batch]; split; intros H; try reflexivity; discriminate.
  - intros [|p batch] xs ys H; [discriminate|].
    destruct (Hne p batch) as (xs' & Hc & Hlen). rewrite Hc in H.
    inversion H; subst. split; [discriminate|exact Hlen].
Qed.

End Collator.

Arguments split {rng} train_test_split idx test_size shuffle _.
Arguments train_val_test_split {rng} train_test_split idx val_size test_size shuffle _.
Arguments make_idx {rng} train_test_split dataset val_size test_size _.
Arguments make_loaders listdir {rng} train_test_split
  benign_dir malware_dir batch_size val_size test_size _.

(** ** Reproducibility *)




Section Reproducibility.

Context {rng : Type}.
Variable tts :
  list Z -> pynum -> bool -> rng -> option (list Z * list Z) * rng.

(** The primitive's contract for [shuffle=False]: what it returns does not
    depend on the random state. *)
Hypothesis tts_no_shuffle :
  forall idx test_size s1 s2,
    fst (tts idx test_size false s1) = fst (tts idx test_size false s2).




End Reproducibility.

(** ** The reference environment meets the primitive's contract *)

Lemma rotate_permutation {A} (k : nat) (l : list A) :
  Permutation (Ref.rotate k l) l.
Proof.
  unfold Ref.rotate. rewrite Permutation_app_comm. now rewrite firstn_skipn.
Qed.

Lemma permissive_split_permutes (idx : list Z) (test_size : pynum)
      (shuffle : bool) (s : Ref.rng) (tr te : list Z) (s' : Ref.rng) :
  Ref.permissive_train_test_split idx test_size shuffle s = (Some (tr, te), s') ->
  Permutation (tr ++ te) idx.
Proof.
  unfold Ref.permissive_train_test_split.
  destruct (n_test_of test_size (length idx)) as [k|]; [|discriminate].
  destruct ((k <? 0) || _); [discriminate|].
  destruct shuffle; intros H; inversion H; subst.
  - rewrite Permutation_app_comm, firstn_skipn. apply rotate_permutation.
  - now rewrite firstn_skipn.
Qed.

Lemma permissive_split_size (idx : list Z) (test_size : pynum)
      (shuffle : bool) (s : Ref.rng) (tr te : list Z) (s' : Ref.rng) :
  Ref.permissive_train_test_split idx test_size shuffle s = (Some (tr, te), s') ->
  n_test_of test_size (length idx) = Some (Z.of_nat (length te)).
Proof.
  unfold Ref.permissive_train_test_split.
  destruct (n_test_of test_size (length idx)) as [k|]; [|discriminate].
  destruct (Z.ltb_spec k 0) as [Hk|Hk]; [discriminate|].
  destruct (Z.ltb_spec (Z.of_nat (length idx)) k) as [Hn|Hn]; [discriminate|].
  simpl. destruct shuffle; intros H; inversion H; subst; f_equal.
  - rewrite length_firstn. unfold Ref.permutation.
    rewrite (Permutation_length (rotate_permutation _ idx)). lia.
  - rewrite length_skipn. lia.
Qed.

(** When the primitive returns, it returns what the split itself gives. *)
Lemma ref_split_permissive (idx : list Z) (test_size : pynum) (shuffle : bool)
      (s : Ref.rng) (p : list Z * list Z) (s' : Ref.rng) :
  Ref.train_test_split idx test_size shuffle s = (Some p, s') ->
  Ref.permissive_train_test_split idx test_size shuffle s = (Some p, s').
Proof.
  unfold Ref.train_test_split.
  destruct (n_test_of test_size (length idx)) as [k|]; [|discriminate].
  destruct ((k <=? 0) || _); [discriminate|]. auto.
Qed.

Lemma ref_split_permutes (idx : list Z) (test_size : pynum) (shuffle : bool)
      (s : Ref.rng) (tr te : list Z) (s' : Ref.rng) :
  Ref.train_test_split idx test_size shuffle s = (Some (tr, te), s') ->
  Permutation (tr ++ te) idx.
Proof.
  intros H. apply ref_split_permissive in H.
  now apply permissive_split_permutes in H.
Qed.

Lemma ref_split_size (idx : list Z) (test_size : pynum) (shuffle : bool)
      (s : Ref.rng) (tr te : list Z) (s' : Ref.rng) :
  Ref.train_test_split idx test_size shuffle s = (Some (tr, te), s') ->
  n_test_of test_size (length idx) = Some (Z.of_nat (length te)).
Proof.
  intros H. apply ref_split_permissive in H.
  now apply permissive_split_size in H.
Qed.


(** The random state is an input of the split: another seed, another split. *)
Lemma ref_seed_matters :
  fst (make_idx Ref.train_test_split (Ref.dataset 5 5)
         (PyFloat fraction_0_2) (PyFloat fraction_0_2) 7) <>
  fst (make_idx Ref.train_test_split (Ref.dataset 5 5)
         (PyFloat fraction_0_2) (PyFloat fraction_0_2) 8).
Proof. vm_compute. discriminate. Qed.

(** ** The theorems at concrete inputs *)

(** Three benign and two malware files. *)
Lemma getitem_union_witness :
  MalwareDataset_len (Ref.dataset 3 2) = 5%nat /\
  (forall i, 0 <= i < Z.of_nat 3 ->
     exists f, nth_error (benign_files (Ref.dataset 3 2)) (Z.to_nat i) = Some f /\
       MalwareDataset_getitem Ref.path_join Ref.load_tensor (Ref.dataset 3 2) i =
         match Ref.load_tensor
                 (Ref.path_join (benign_dir (Ref.dataset 3 2)) f) with
         | Ok file_ => Ok (file_, 0%float)
         | Err e => Err e
         end) /\
  (forall i, Z.of_nat 3 <= i < Z.of_nat 3 + Z.of_nat 2 ->
     exists f,
       nth_error (malware_files (Ref.dataset 3 2)) (Z.to_nat (i - Z.of_nat 3))
         = Some f /\
       MalwareDataset_getitem Ref.path_join Ref.load_tensor (Ref.dataset 3 2) i =
         match Ref.load_tensor
                 (Ref.path_join (malware_dir (Ref.dataset 3 2)) f) with
         | Ok file_ => Ok (file_, 1%float)
         | Err e => Err e
         end).
Proof.
  exact (getitem_union Ref.path_join Ref.load_tensor (Ref.dataset 3 2) 3 2
           eq_refl eq_refl).
Defined.

(** Index -1 is outside [0, len()), and [__getitem__] answers it with the
    last benign sample: the claim that every such index raises [IndexError]
    does not hold. *)
Lemma getitem_negative_index_counterexample :
  ~ (forall (path_join : string -> string -> string)
            (load_tensor : string -> result tensor)
            (self : MalwareDataset) (i : Z),
        ~ (0 <= i < Z.of_nat (MalwareDataset_len self)) ->
        MalwareDataset_getitem path_join load_tensor self i = Err IndexError).
Proof.
  intros H.
  specialize (H Ref.path_join Ref.load_tensor (Ref.dataset 3 2) (-1)).
  assert (Hout : ~ (0 <= -1 < Z.of_nat (MalwareDataset_len (Ref.dataset 3 2))))
    by lia.
  apply H in Hout. vm_compute in Hout. discriminate.
Qed.

(** Five benign and five malware files, fractions 0.2 and 0.2, seed 7. *)
Lemma make_idx_partition_witness :
  make_idx Ref.train_test_split (Ref.dataset 5 5)
    (PyFloat fraction_0_2) (PyFloat fraction_0_2) 7 =
    (Ok ([4; 0; 1; 7; 9; 5], [3; 6], [2; 8]), 1486001571) /\
  (length [4; 0; 1; 7; 9; 5]%Z + length [3; 6]%Z + length [2; 8]%Z =
     length (benign_files (Ref.dataset 5 5)) +
     length (malware_files (Ref.dataset 5 5)))%nat /\
  (forall i, In i [4; 0; 1; 7; 9; 5] -> ~ In i [3; 6]) /\
  (forall i, In i [4; 0; 1; 7; 9; 5] -> ~ In i [2; 8]) /\
  (forall i, In i [3; 6] -> ~ In i [2; 8]) /\
  (forall i, In i [4; 0; 1; 7; 9; 5] \/ In i [3; 6] \/ In i [2; 8] <->
             0 <= i < Z.of_nat (MalwareDataset_len (Ref.dataset 5 5))).
Proof.
  split; [vm_compute; reflexivity|].
  apply (make_idx_partition Ref.rng Ref.train_test_split ref_split_permutes
           (Ref.dataset 5 5) (PyFloat fraction_0_2) (PyFloat fraction_0_2) 7
           _ _ _ 1486001571).
  vm_compute; reflexivity.
Defined.

(** A hundred benign and a hundred malware files, test fraction 0.2. *)
Lemma make_idx_stratified_witness :
  exists train_idx val_idx test_idx s',
    make_idx Ref.train_test_split (Ref.dataset 100 100)
      (PyFloat fraction_0_2) (PyFloat fraction_0_2) 7 =
      (Ok (train_idx, val_idx, test_idx), s') /\
    length test_idx = 40%nat /\
    count_benign (Ref.dataset 100 100) test_idx = 20%nat /\
    count_malware (Ref.dataset 100 100) test_idx = 20%nat.
Proof.
  destruct (make_idx Ref.train_test_split (Ref.dataset 100 100)
              (PyFloat fraction_0_2) (PyFloat fraction_0_2) 7)
    as [[[[tr va] te]|e] s'] eqn:E.
  - exists tr, va, te, s'. split; [reflexivity|].
    pose proof (make_idx_stratified Ref.rng Ref.train_test_split
                  ref_split_permutes ref_split_size (Ref.dataset 100 100)
                  (PyFloat fraction_0_2) (PyFloat fraction_0_2) 7
                  tr va te s' E) as (_ & _ & H).
    specialize (H ltac:(vm_compute; reflexivity) ltac:(vm_compute; reflexivity)
                  eq_refl).
    split; [|exact H].
    vm_compute in E. inversion E. reflexivity.
  - exfalso. vm_compute in E. discriminate.
Defined.



(** The fractions 0.5, 0.6 and 0.1 as Python reads them. *)
Definition fraction_0_5 : float := 0x1p-1%float.
Definition fraction_0_6 : float := 0x1.3333333333333p-1%float.
Definition fraction_0_1 : float := 0x1.999999999999ap-4%float.

(** Fractions 0.5 and 0.6 are refused, 0.1 and 0.1 are not. *)
Lemma make_loaders_fraction_check_witness :
  make_loaders Ref.listdir Ref.train_test_split "benign" "malware" 2
    fraction_0_5 fraction_0_6 7 =
    (Err (FractionsError (fraction_0_5 + fraction_0_6)%float), 7) /\
  (forall x,
     fst (make_loaders Ref.listdir Ref.train_test_split "benign" "malware" 2
            fraction_0_1 fraction_0_1 7) <> Err (FractionsError x)).
Proof.
  split.
  - apply (proj1 (make_loaders_fraction_check Ref.listdir Ref.rng
                    Ref.train_test_split "benign" "malware" 2
                    fraction_0_5 fraction_0_6 7)).
    vm_compute; reflexivity.
  - apply (proj2 (make_loaders_fraction_check Ref.listdir Ref.rng
                    Ref.train_test_split "benign" "malware" 2
                    fraction_0_1 fraction_0_1 7)).
    vm_compute; reflexivity.
Defined.

(** The check comes first: with fractions 0.5 and 0.6 the error is the same
    on a file system with no directory at all and a primitive that always
    raises. *)
Lemma make_loaders_fraction_check_first :
  make_loaders (fun _ => None) (fun _ _ _ s => (None, s)) "benign" "malware" 2
    fraction_0_5 fraction_0_6 tt =
    (Err (FractionsError (fraction_0_5 + fraction_0_6)%float), tt).
Proof. vm_compute; reflexivity. Qed.

(** A sample of ten values. *)
Definition sample_10 : tensor := [77; 90; 144; 0; 3; 0; 0; 0; 4; 0].

Lemma collate_fn_pads_witness :
  exists xs ys row,
    collate_fn [(sample_10, 0%float)] = Ok (xs, ys) /\
    nth_error xs 0 = Some row /\
    length row = 4096%nat /\
    firstn 10 row = sample_10 /\
    skipn 10 row = repeat 256 4086.
Proof.
  apply (collate_fn_pads [(sample_10, 0%float)] 0 sample_10 0%float eq_refl).
  vm_compute. lia.
Defined.

(** A sample of five thousand byte values. *)
Definition sample_5000 : tensor :=
  map (fun k => Z.of_nat (k mod 256)) (seq 0 5000).

Lemma collate_fn_truncates_witness :
  exists xs ys row,
    collate_fn [(sample_5000, 1%float)] = Ok (xs, ys) /\
    nth_error xs 0 = Some row /\
    row = firstn 4096 sample_5000 /\
    length row = 4096%nat /\
    (forall z, In z row -> In z sample_5000) /\
    (~ In 256 sample_5000 -> ~ In 256 row).
Proof.
  apply (collate_fn_truncates [(sample_5000, 1%float)] 0 sample_5000 1%float
           eq_refl).
  unfold sample_5000. rewrite length_map, length_seq. lia.
Defined.

(** C1, on the code.  Whatever the file system and the primitive, when
    [make_loaders] returns, its train and test loaders view the dataset of
    the two given directories and its validation loader views the dataset
    of the two directories written into it, through the [val_idx] that was
    split off the first dataset.  On two directories of five files each,
    with one file in each written-in directory, no loader is returned at
    all: the first dataset is listed and split, and the split of the second
    dataset with the sizes 1 and 0 raises inside the primitive. *)
Theorem make_loaders_val_loader_dataset :
  (forall (rng : Type) (listdir : string -> option (list string))
          (tts : list Z -> pynum -> bool -> rng ->
                 option (list Z * list Z) * rng)
          (benign_dir0 malware_dir0 : string) (batch_size : Z)
          (val_size test_size : float) (s s' : rng)
          (train_loader val_loader test_loader : DataLoader),
      make_loaders listdir tts benign_dir0 malware_dir0 batch_size
        val_size test_size s =
        (Ok (train_loader, val_loader, test_loader), s') ->
      exists dataset testing train_idx val_idx test_idx s1,
        MalwareDataset_init listdir benign_dir0 malware_dir0 = Ok dataset /\
        MalwareDataset_init listdir testing_benign_dir testing_malware_dir =
          Ok testing /\
        make_idx tts dataset (PyFloat val_size) (PyFloat test_size) s =
          (Ok (train_idx, val_idx, test_idx), s1) /\
        dl_dataset train_loader = Build_Subset dataset train_idx /\
        dl_dataset test_loader = Build_Subset dataset test_idx /\
        dl_dataset val_loader = Build_Subset testing val_idx /\
        benign_dir testing = testing_benign_dir /\
        malware_dir testing = testing_malware_dir) /\
  MalwareDataset_init Ref.listdir "benign" "malware" = Ok (Ref.dataset 5 5) /\
  make_idx Ref.train_test_split (Ref.dataset 5 5)
    (PyFloat fraction_0_2) (PyFloat fraction_0_2) 7 =
    (Ok ([4; 0; 1; 7; 9; 5], [3; 6], [2; 8]), 1486001571) /\
  (exists testing,
     MalwareDataset_init Ref.listdir testing_benign_dir testing_malware_dir =
       Ok testing /\
     MalwareDataset_len testing = 2%nat /\
     make_idx Ref.train_test_split testing (PyInt 1) (PyInt 0) 1486001571 =
       (Err SplitError, 1486001571)) /\
  make_loaders Ref.listdir Ref.train_test_split "benign" "malware" 2
    fraction_0_2 fraction_0_2 7 = (Err SplitError, 1486001571).
Proof.
  split.
  - intros rng listdir tts benign_dir0 malware_dir0 batch_size val_size
      test_size s s' train_loader val_loader test_loader H.
    apply make_loaders_Ok in H
      as (dataset & testing & tr & va & te & s1 & Hd & Ht & Hidx & -> & -> & ->).
    exists dataset, testing, tr, va, te, s1.
    assert (Hdirs : benign_dir testing = testing_benign_dir /\
                    malware_dir testing = testing_malware_dir).
    { unfold MalwareDataset_init, os_listdir in Ht.
      destruct (listdir testing_benign_dir); [|discriminate].
      destruct (listdir testing_malware_dir); [|discriminate].
      inversion Ht; subst. simpl. auto. }
    destruct Hdirs. repeat split; auto.
  - split; [vm_compute; reflexivity|]. split; [vm_compute; reflexivity|].
    split; [|vm_compute; reflexivity].
    eexists. split; [vm_compute; reflexivity|].
    split; vm_compute; reflexivity.
Qed.

(** * Further properties of the code *)

(** ** Directory listings are sorted *)

(** The order of [sorted] on file names. *)
Definition string_le (a b : string) : Prop := String.leb a b = true.

Lemma string_le_compare (a b : string) :
  string_le a b <-> String.compare a b <> Gt.
Proof.
  unfold string_le, String.leb.
  destruct (String.compare a b); split; intros H; congruence.
Qed.

Lemma string_compare_trans (a : string) :
  forall b c, String.compare a b <> Gt -> String.compare b c <> Gt ->
              String.compare a c <> Gt.
Proof.
  induction a as [|c1 a IH]; intros [|c2 b] [|c3 c]; simpl; try congruence.
  unfold Ascii.compare.
  destruct (N.compare_spec (N_of_ascii c1) (N_of_ascii c2)) as [E12|L12|G12];
    try congruence;
    destruct (N.compare_spec (N_of_ascii c2) (N_of_ascii c3)) as [E23|L23|G23];
    try congruence; intros H1 H2.
  - rewrite E12, E23, N.compare_refl. now apply (IH b c).
  - rewrite E12. apply N.compare_lt_iff in L23. rewrite L23. congruence.
  - rewrite <- E23. apply N.compare_lt_iff in L12. rewrite L12. congruence.
  - assert (L : (N_of_ascii c1 < N_of_ascii c3)%N) by (eapply N.lt_trans; eauto).
    apply N.compare_lt_iff in L. rewrite L. congruence.
Qed.

Lemma string_le_trans (a b c : string) :
  string_le a b -> string_le b c -> string_le a c.
Proof. rewrite !string_le_compare. apply string_compare_trans. Qed.

Lemma insert_sorted_permutation (x : string) (l : list string) :
  Permutation (insert_sorted x l) (x :: l).
Proof.
  induction l as [|y l IH]; simpl; [reflexivity|].
  destruct (String.leb x y); [reflexivity|].
  rewrite IH. apply perm_swap.
Qed.

Lemma sorted_permutation (l : list string) : Permutation (sorted l) l.
Proof.
  induction l as [|x l IH]; simpl; [reflexivity|].
  rewrite insert_sorted_permutation. now apply perm_skip.
Qed.

Lemma insert_sorted_StronglySorted (x : string) (l : list string) :
  StronglySorted string_le l -> StronglySorted string_le (insert_sorted x l).
Proof.
  induction l as [|y l IH]; simpl; intros Hs.
  - constructor; [constructor|constructor].
  - destruct (String.leb x y) eqn:E.
    + constructor; [exact Hs|]. apply StronglySorted_inv in Hs as [_ Hy].
      constructor; [exact E|].
      apply (Forall_impl _ (fun z Hz => string_le_trans x y z E Hz) Hy).
    + apply StronglySorted_inv in Hs as [Hl Hy]. constructor; [now apply IH|].
      apply (Permutation_Forall (Permutation_sym (insert_sorted_permutation x l))).
      constructor; [|exact Hy].
      destruct (String.leb_total x y) as [H|H]; [congruence|exact H].
Qed.

Lemma sorted_StronglySorted (l : list string) :
  StronglySorted string_le (sorted l).
Proof.
  induction l as [|x l IH]; simpl; [constructor|].
  now apply insert_sorted_StronglySorted.
Qed.

(** Two sorted lists with the same elements are the same list. *)
Lemma StronglySorted_unique (l1 : list string) :
  forall l2, StronglySorted string_le l1 -> StronglySorted string_le l2 ->
             Permutation l1 l2 -> l1 = l2.
Proof.
  induction l1 as [|a l1 IH]; intros l2 H1 H2 HP.
  - apply Permutation_nil in HP. now subst.
  - destruct l2 as [|b l2];
      [apply Permutation_sym, Permutation_nil in HP; discriminate|].
    apply StronglySorted_inv in H1 as [H1 Ha].
    apply StronglySorted_inv in H2 as [H2 Hb].
    assert (Hab : a = b).
    { assert (Ia : In a (b :: l2)) by (apply (Permutation_in _ HP); now left).
      assert (Ib : In b (a :: l1))
        by (apply (Permutation_in _ (Permutation_sym HP)); now left).
      destruct Ia as [->|Ia]; [reflexivity|].
      destruct Ib as [->|Ib]; [reflexivity|].
      rewrite Forall_forall in Ha, Hb.
      apply String.leb_antisym; [apply Ha, Ib|apply Hb, Ia]. }
    subst b. f_equal. apply IH; try assumption.
    now apply Permutation_cons_inv in HP.
Qed.

Lemma sorted_order_independent (l1 l2 : list string) :
  Permutation l1 l2 -> sorted l1 = sorted l2.
Proof.
  intros HP. apply StronglySorted_unique; try apply sorted_StronglySorted.
  rewrite !sorted_permutation. exact HP.
Qed.

Section Datasets.

Variable listdir : string -> option (list string).
Variable path_join : string -> string -> string.
Variable load_tensor : string -> result tensor.

(** X1: [MalwareDataset.__init__] returns a dataset exactly when both
    directories can be listed; its file lists are the two listings put in
    order, nothing added and nothing lost, and its length is the number of
    entries of the two directories. *)
Theorem MalwareDataset_init_sorted_listing (benign_dir0 malware_dir0 : string)
        (self : MalwareDataset) :
  MalwareDataset_init listdir benign_dir0 malware_dir0 = Ok self <->
  exists bs ms,
    listdir benign_dir0 = Some bs /\ listdir malware_dir0 = Some ms /\
    self = Build_MalwareDataset benign_dir0 malware_dir0 (sorted bs) (sorted ms) /\
    Permutation (benign_files self) bs /\
    Permutation (malware_files self) ms /\
    StronglySorted string_le (benign_files self) /\
    StronglySorted string_le (malware_files self) /\
    MalwareDataset_len self = (length bs + length ms)%nat.
Proof.
  unfold MalwareDataset_init, os_listdir. split.
  - destruct (listdir benign_dir0) as [bs|]; [|discriminate].
    destruct (listdir malware_dir0) as [ms|]; [|discriminate].
    intros H. inversion H; subst. exists bs, ms. simpl.
    repeat split; try apply sorted_permutation; try apply sorted_StronglySorted.
    unfold MalwareDataset_len. simpl.
    now rewrite !(Permutation_length (sorted_permutation _)).
  - intros (bs & ms & -> & -> & -> & _). reflexivity.
Qed.

(** X3: What [__getitem__] can answer: a sample it returns is the content of
    a file of the dataset, labelled 0.0 when the file is in the benign list
    and 1.0 when it is in the malware list; an error is [IndexError] or the
    exception that reading one of the dataset's files raised.  No other
    label and no other error leaves it. *)
Theorem getitem_outcomes (self : MalwareDataset) (index : Z) :
  match MalwareDataset_getitem path_join load_tensor self index with
  | Ok (file_, lbl) =>
      (lbl = 0%float /\ exists f, In f (benign_files self) /\
         load_tensor (path_join (benign_dir self) f) = Ok file_) \/
      (lbl = 1%float /\ exists f, In f (malware_files self) /\
         load_tensor (path_join (malware_dir self) f) = Ok file_)
  | Err e =>
      e = IndexError \/
      (exists f, In f (benign_files self) /\
         load_tensor (path_join (benign_dir self) f) = Err e) \/
      (exists f, In f (malware_files self) /\
         load_tensor (path_join (malware_dir self) f) = Err e)
  end.
Proof.
  assert (Hin : forall (l : list string) i f, list_getitem l i = Ok f -> In f l).
  { intros l i f. unfold list_getitem.
    destruct ((_ <? 0) || _); [discriminate|].
    destruct (nth_error l _) eqn:E; [|discriminate].
    intros H. inversion H; subst. now apply nth_error_In in E. }
  destruct (list_getitem (benign_files self) index) as [f|e] eqn:E1.
  - rewrite (getitem_benign _ _ _ _ _ E1). unfold load_sample.
    apply Hin in E1.
    destruct (load_tensor (path_join (benign_dir self) f)) eqn:L.
    + left. split; [reflexivity|]. now exists f.
    + right. left. now exists f.
  - pose proof (list_getitem_err _ _ _ E1) as He; subst e.
    destruct (list_getitem (malware_files self)
                (index - Z.of_nat (length (benign_files self)))) as [f|e] eqn:E2.
    + rewrite (getitem_malware _ _ _ _ _ E1 E2). unfold load_sample.
      apply Hin in E2.
      destruct (load_tensor (path_join (malware_dir self) f)) eqn:L.
      * right. split; [reflexivity|]. now exists f.
      * right. right. now exists f.
    + pose proof (list_getitem_err _ _ _ E2) as He; subst e.
      unfold MalwareDataset_getitem. rewrite E1. simpl. rewrite E2. now left.
Qed.

(** X4: A negative index below -B is looked up in the malware list, where a
    negative index counts from the end as well: for B - M <= index < -B,
    [__getitem__] answers with the tensor read from malware file
    M + (index - B) and the label 1.0. *)
Theorem getitem_negative_malware (self : MalwareDataset) (index : Z) :
  let B := Z.of_nat (length (benign_files self)) in
  let M := Z.of_nat (length (malware_files self)) in
  B - M <= index < - B ->
  exists f,
    nth_error (malware_files self) (Z.to_nat (M + (index - B))) = Some f /\
    MalwareDataset_getitem path_join load_tensor self index =
      match load_tensor (path_join (malware_dir self) f) with
      | Ok file_ => Ok (file_, 1%float)
      | Err e => Err e
      end.
Proof.
  intros B M Hi.
  destruct (list_getitem_negative (malware_files self) (index - B))
    as (f & Hn & Hg); [fold M; lia|].
  exists f. split.
  - fold M in Hn. now replace (M + (index - B)) with (index - B + M) by lia.
  - rewrite (getitem_malware _ _ _ _ f); [reflexivity| |exact Hg].
    apply list_getitem_outside. fold B. lia.
Qed.

(** X5: [UniLabelDataset]: the label is 1.0 for a malware directory and 0.0
    otherwise; [__getitem__] raises [IndexError], reading no file, for
    every index outside [-n, n), and inside it answers with the tensor read
    from the file at the index (counted from the end when negative) and
    that label, or with the exception of the read. *)
Theorem UniLabelDataset_getitem_spec (data_dir0 : string) (is_malware : bool)
        (self : UniLabelDataset) (index : Z) :
  UniLabelDataset_init listdir data_dir0 is_malware = Ok self ->
  let n := Z.of_nat (UniLabelDataset_len self) in
  label self = (if is_malware then 1%float else 0%float) /\
  (~ (- n <= index < n) ->
     UniLabelDataset_getitem path_join load_tensor self index = Err IndexError) /\
  (- n <= index < n ->
     exists f,
       nth_error (files self)
         (Z.to_nat (if index <? 0 then index + n else index)) = Some f /\
       UniLabelDataset_getitem path_join load_tensor self index =
         match load_tensor (path_join data_dir0 f) with
         | Ok file_ => Ok (file_, if is_malware then 1%float else 0%float)
         | Err e => Err e
         end).
Proof.
  intros H n. unfold UniLabelDataset_init, os_listdir in H.
  destruct (listdir data_dir0) as [fs|]; [|discriminate].
  inversion H; subst self. clear H. simpl in *.
  unfold UniLabelDataset_len in n. simpl in n.
  split; [reflexivity|]. split.
  - intros Hi. unfold UniLabelDataset_getitem. simpl.
    now rewrite list_getitem_outside.
  - intros Hi.
    assert (Hin : exists f,
       nth_error (sorted fs)
         (Z.to_nat (if index <? 0 then index + n else index)) = Some f /\
       list_getitem (sorted fs) index = Ok f).
    { destruct (Z.ltb_spec index 0).
      - apply list_getitem_negative. fold n. lia.
      - apply list_getitem_nonneg. fold n. lia. }
    destruct Hin as (f & Hn & Hg). exists f.
    split; [exact Hn|]. unfold UniLabelDataset_getitem. simpl. now rewrite Hg.
Qed.

(** X6: The union dataset is the benign single-label dataset followed by the
    malware one: built from the same two directories, it has their lengths
    added, answers an index in [0, B) as the benign dataset answers it, and
    an index in [B, B+M) as the malware dataset answers index - B. *)
Theorem MalwareDataset_is_concatenation (benign_dir0 malware_dir0 : string)
        (self : MalwareDataset) (benign malware : UniLabelDataset) :
  MalwareDataset_init listdir benign_dir0 malware_dir0 = Ok self ->
  UniLabelDataset_init listdir benign_dir0 false = Ok benign ->
  UniLabelDataset_init listdir malware_dir0 true = Ok malware ->
  let B := UniLabelDataset_len benign in
  let M := UniLabelDataset_len malware in
  MalwareDataset_len self = (B + M)%nat /\
  (forall i, 0 <= i < Z.of_nat B ->
     MalwareDataset_getitem path_join load_tensor self i =
       UniLabelDataset_getitem path_join load_tensor benign i) /\
  (forall i, Z.of_nat B <= i < Z.of_nat B + Z.of_nat M ->
     MalwareDataset_getitem path_join load_tensor self i =
       UniLabelDataset_getitem path_join load_tensor malware (i - Z.of_nat B)).
Proof.
  intros H1 H2 H3 B M.
  unfold MalwareDataset_init, UniLabelDataset_init, os_listdir in H1, H2, H3.
  destruct (listdir benign_dir0) as [bs|]; [|discriminate].
  destruct (listdir malware_dir0) as [ms|]; [|discriminate].
  inversion H1; inversion H2; inversion H3.
  subst self benign malware. clear H1 H2 H3.
  unfold UniLabelDataset_len in B, M. simpl in B, M.
  split; [reflexivity|]. split; intros i Hi.
  - destruct (list_getitem_nonneg (sorted bs) i) as (f & _ & Hg); [fold B; lia|].
    rewrite (getitem_benign _ _ _ _ f) by exact Hg.
    unfold UniLabelDataset_getitem. simpl. now rewrite Hg.
  - destruct (list_getitem_nonneg (sorted ms) (i - Z.of_nat B))
      as (f & _ & Hg); [fold M; lia|].
    rewrite (getitem_malware _ _ _ _ f); simpl.
    + unfold UniLabelDataset_getitem. simpl. now rewrite Hg.
    + apply list_getitem_outside. fold B. lia.
    + exact Hg.
Qed.

End Datasets.

(** X2: The order in which a directory is listed does not matter: two file
    systems that list the same entries for the two directories, in whatever
    order, give the same dataset, hence the same sample at every index. *)
Theorem MalwareDataset_init_order_independent
        (listdir1 listdir2 : string -> option (list string))
        (benign_dir0 malware_dir0 : string) (bs1 bs2 ms1 ms2 : list string) :
  listdir1 benign_dir0 = Some bs1 -> listdir2 benign_dir0 = Some bs2 ->
  listdir1 malware_dir0 = Some ms1 -> listdir2 malware_dir0 = Some ms2 ->
  Permutation bs1 bs2 -> Permutation ms1 ms2 ->
  MalwareDataset_init listdir1 benign_dir0 malware_dir0 =
  MalwareDataset_init listdir2 benign_dir0 malware_dir0.
Proof.
  intros Hb1 Hb2 Hm1 Hm2 Pb Pm. unfold MalwareDataset_init, os_listdir.
  rewrite Hb1, Hb2, Hm1, Hm2.
  now rewrite (sorted_order_independent _ _ Pb), (sorted_order_independent _ _ Pm).
Qed.

(** ** The collator as a map over the batch *)

Lemma padded_length (max_len : nat) (padding_value : Z) (t : tensor) :
  length (padded max_len padding_value t) = max_len.
Proof.
  unfold padded. destruct (Nat.ltb_spec (length t) max_len).
  - rewrite length_app, repeat_length. lia.
  - now apply firstn_length_le.
Qed.

(** The loop of [pad_sequence] writes every row from its own sample. *)
Lemma pad_sequence_Some_map (sequences : list tensor) (max_len : nat)
      (padding_value : Z) :
  sequences <> [] ->
  pad_sequence sequences (Some max_len) padding_value =
    Ok (map (padded max_len padding_value) sequences).
Proof.
  intros Hne. destruct sequences as [|t0 rest] eqn:Es; [congruence|].
  rewrite <- Es in *.
  destruct (pad_sequence_row sequences max_len padding_value 0 t0)
    as (out & Hout & Hlen & _); [now rewrite Es|].
  rewrite Hout. f_equal. apply nth_error_ext. intros k.
  rewrite nth_error_map.
  destruct (nth_error sequences k) as [t|] eqn:Ek; simpl.
  - destruct (pad_sequence_row sequences max_len padding_value k t Ek)
      as (out' & Hout' & _ & Hrow).
    rewrite Hout in Hout'. inversion Hout'; subst. exact Hrow.
  - apply nth_error_None. apply nth_error_None in Ek. lia.
Qed.

Lemma pad_sequence_Ok_nonempty (sequences : list tensor) (max_len : option nat)
      (padding_value : Z) (out : tensor2) :
  pad_sequence sequences max_len padding_value = Ok out -> sequences <> [].
Proof.
  intros H ->. destruct max_len; discriminate.
Qed.

(** X7: [pad_sequence] with a given [max_len] returns one row per sequence and
    every row has width [max_len], whatever the lengths of the sequences
    (also when none of them reaches [max_len], and when [max_len] is 0). *)
Theorem pad_sequence_rectangular (sequences : list tensor) (max_len : nat)
        (padding_value : Z) (out : tensor2) :
  pad_sequence sequences (Some max_len) padding_value = Ok out ->
  length out = length sequences /\
  Forall (fun row => length row = max_len) out.
Proof.
  intros H. pose proof (pad_sequence_Ok_nonempty _ _ _ _ H) as Hne.
  rewrite (pad_sequence_Some_map _ _ _ Hne) in H. inversion H; subst.
  split; [apply length_map|].
  apply Forall_forall. intros row Hrow. apply in_map_iff in Hrow as (t & <- & _).
  apply padded_length.
Qed.

Lemma fold_left_max_ge (l : list nat) :
  forall x, (x <= fold_left Nat.max l x)%nat /\
            (forall y, In y l -> (y <= fold_left Nat.max l x)%nat) /\
            In (fold_left Nat.max l x) (x :: l).
Proof.
  induction l as [|a l IH]; intros x; simpl.
  - split; [lia|]. split; [contradiction|]. now left.
  - destruct (IH (Nat.max x a)) as (H1 & H2 & H3). split; [lia|]. split.
    + intros y [->|Hy]; [lia|now apply H2].
    + destruct H3 as [H3|H3]; [|now right; right].
      rewrite <- H3. destruct (Nat.max_spec x a) as [[_ ->]|[_ ->]]; auto.
Qed.

(** X8: [pad_sequence] without [max_len] takes the longest sequence as the
    width: no sequence is cut, each row is its sequence followed by the
    padding value up to that width; on no sequences it is [max] that fails. *)
Theorem pad_sequence_default_width (sequences : list tensor)
        (padding_value : Z) :
  pad_sequence [] None padding_value = Err EmptyMaxError /\
  (sequences <> [] ->
   exists width,
     py_max (map (@length Z) sequences) = Ok width /\
     (forall t, In t sequences -> (length t <= width)%nat) /\
     (exists t, In t sequences /\ length t = width) /\
     pad_sequence sequences None padding_value =
       Ok (map (fun t => t ++ repeat padding_value (width - length t))
             sequences)).
Proof.
  split; [reflexivity|]. intros Hne.
  destruct sequences as [|t0 rest] eqn:Es; [congruence|]. rewrite <- Es in *.
  set (width := fold_left Nat.max (map (@length Z) rest) (length t0)).
  assert (Hmax : py_max (map (@length Z) sequences) = Ok width)
    by (rewrite Es; reflexivity).
  destruct (fold_left_max_ge (map (@length Z) rest) (length t0))
    as (H1 & H2 & H3). fold width in H1, H2, H3.
  assert (Hle : forall t, In t sequences -> (length t <= width)%nat).
  { intros t Ht. rewrite Es in Ht. destruct Ht as [<-|Ht]; [exact H1|].
    apply H2. now apply in_map. }
  exists width. split; [exact Hmax|]. split; [exact Hle|]. split.
  - change (In width (map (@length Z) (t0 :: rest))) in H3. rewrite <- Es in H3.
    apply in_map_iff in H3 as (t & Ht & Hin). now exists t.
  - transitivity (pad_sequence sequences (Some width) padding_value).
    { unfold pad_sequence. now rewrite Hmax. }
    rewrite (pad_sequence_Some_map _ _ _ Hne). apply f_equal.
    apply map_ext_in. intros t Ht. apply Hle in Ht. unfold padded.
    destruct (Nat.ltb_spec (length t) width); [reflexivity|].
    replace (width - length t)%nat with 0%nat by lia. simpl.
    rewrite app_nil_r. apply firstn_all2. lia.
Qed.

Lemma padded_padded (max_len : nat) (padding_value : Z) (t : tensor) :
  padded max_len padding_value (padded max_len padding_value t) =
  padded max_len padding_value t.
Proof.
  unfold padded at 1. rewrite padded_length, Nat.ltb_irrefl.
  apply firstn_all2. now rewrite padded_length.
Qed.

(** X9: A padded batch is a fixed point: padding the rows [pad_sequence]
    returned, with the same width, returns them unchanged. *)
Theorem pad_sequence_idempotent (sequences : list tensor) (max_len : nat)
        (padding_value : Z) (out : tensor2) :
  pad_sequence sequences (Some max_len) padding_value = Ok out ->
  pad_sequence out (Some max_len) padding_value = Ok out.
Proof.
  intros H. pose proof (pad_sequence_Ok_nonempty _ _ _ _ H) as Hne.
  rewrite (pad_sequence_Some_map _ _ _ Hne) in H. inversion H; subst.
  rewrite pad_sequence_Some_map.
  - rewrite map_map. apply f_equal. apply map_ext. intros t. apply padded_padded.
  - destruct sequences; [congruence|discriminate].
Qed.

(** X10: Only the first [max_len] values of a sequence reach the batch: cutting
    every sequence to [max_len] beforehand changes nothing. *)
Theorem pad_sequence_truncate_first (sequences : list tensor) (max_len : nat)
        (padding_value : Z) :
  pad_sequence (map (firstn max_len) sequences) (Some max_len) padding_value =
  pad_sequence sequences (Some max_len) padding_value.
Proof.
  destruct sequences as [|t0 rest] eqn:Es; [reflexivity|]. rewrite <- Es.
  rewrite !pad_sequence_Some_map by (rewrite Es; discriminate).
  rewrite map_map. apply f_equal. apply map_ext. intros t. unfold padded.
  rewrite length_firstn.
  destruct (Nat.ltb_spec (length t) max_len) as [Hlt|Hge].
  - rewrite Nat.min_r by lia.
    destruct (Nat.ltb_spec (length t) max_len); [|lia].
    now rewrite firstn_all2 by lia.
  - rewrite Nat.min_l by lia. rewrite Nat.ltb_irrefl.
    apply firstn_all2. rewrite length_firstn. lia.
Qed.

(** X11: What [collate_fn] returns: the labels of the batch in the order of the
    samples, one row per sample, every row 4096 wide, and each row made from
    its own sample alone. *)
Theorem collate_fn_shape (batch : list (tensor * float)) (xs : tensor2)
        (ys : list float) :
  collate_fn batch = Ok (xs, ys) ->
  ys = map snd batch /\
  xs = map (fun x => padded 4096 256 (fst x)) batch /\
  length xs = length batch /\ length ys = length batch /\
  Forall (fun row => length row = 4096%nat) xs.
Proof.
  unfold collate_fn. intros H.
  destruct (pad_sequence (map fst batch) (Some 4096%nat) 256) as [out|e] eqn:E;
    [|discriminate].
  inversion H; subst. clear H.
  pose proof (pad_sequence_Ok_nonempty _ _ _ _ E) as Hne.
  rewrite (pad_sequence_Some_map _ _ _ Hne) in E. inversion E; subst.
  rewrite map_map. rewrite !length_map.
  repeat split; try reflexivity.
  apply Forall_forall. intros row Hrow. apply in_map_iff in Hrow as (x & <- & _).
  apply padded_length.
Qed.

(** X12: Collation is per sample: the rows and labels of two batches put
    together are the rows and labels of the batches, one after the other. *)
Theorem collate_fn_app (batch1 batch2 : list (tensor * float))
        (xs1 xs2 : tensor2) (ys1 ys2 : list float) :
  collate_fn batch1 = Ok (xs1, ys1) ->
  collate_fn batch2 = Ok (xs2, ys2) ->
  collate_fn (batch1 ++ batch2) = Ok (xs1 ++ xs2, ys1 ++ ys2).
Proof.
  assert (Hc : forall b, b <> [] ->
             collate_fn b =
               Ok (map (fun x => padded 4096 256 (fst x)) b, map snd b)).
  { intros b Hb. unfold collate_fn. rewrite pad_sequence_Some_map.
    - now rewrite map_map.
    - destruct b; [congruence|discriminate]. }
  intros H1 H2.
  assert (Hn1 : batch1 <> []) by (intros ->; discriminate).
  assert (Hn2 : batch2 <> []) by (intros ->; discriminate).
  rewrite (Hc _ Hn1) in H1. rewrite (Hc _ Hn2) in H2.
  inversion H1; inversion H2; subst.
  rewrite Hc by (destruct batch1; [congruence|discriminate]).
  now rewrite !map_app.
Qed.

(** ** Further properties of the splitter and of the loader factory *)

Section Splitter.

Context {rng : Type}.
Variable listdir : string -> option (list string).
Variable tts : list Z -> pynum -> bool -> rng -> option (list Z * list Z) * rng.

(** The primitive's contract, as before. *)
Hypothesis tts_permutes :
  forall idx test_size shuffle s tr te s',
    tts idx test_size shuffle s = (Some (tr, te), s') ->
    Permutation (tr ++ te) idx.
Hypothesis tts_size :
  forall idx test_size shuffle s tr te s',
    tts idx test_size shuffle s = (Some (tr, te), s') ->
    n_test_of test_size (length idx) = Some (Z.of_nat (length te)).

Lemma train_val_test_split_lengths idx val_size test_size shuffle s
      tr va te s' :
  train_val_test_split tts idx val_size test_size shuffle s =
    (Ok (tr, va, te), s') ->
  n_test_of test_size (length idx) = Some (Z.of_nat (length te)) /\
  n_test_of val_size (length idx - length te) = Some (Z.of_nat (length va)) /\
  (length tr + length va + length te = length idx)%nat.
Proof.
  intros H. apply train_val_test_split_Ok in H as (tv & s1 & H1 & H2).
  pose proof (split_permutes _ _ tts_permutes _ _ _ _ _ _ _ H1) as P1.
  pose proof (split_permutes _ _ tts_permutes _ _ _ _ _ _ _ H2) as P2.
  apply Permutation_length in P1, P2. rewrite length_app in P1, P2.
  apply (split_size _ _ tts_size) in H1, H2.
  split; [exact H1|]. split; [|lia].
  now replace (length idx - length te)%nat with (length tv) by lia.
Qed.

(** X13: The validation size is taken of what the test split leaves, not of the
    whole: the test part has the primitive's count for all the indices, the
    validation part the primitive's count for the indices that remain, and
    the training part is the rest; the three parts are the given indices,
    rearranged. *)
Theorem train_val_test_split_sizes (idx : list Z) (val_size test_size : pynum)
        (shuffle : bool) (s s' : rng) (train_idx val_idx test_idx : list Z) :
  train_val_test_split tts idx val_size test_size shuffle s =
    (Ok (train_idx, val_idx, test_idx), s') ->
  n_test_of test_size (length idx) = Some (Z.of_nat (length test_idx)) /\
  n_test_of val_size (length idx - length test_idx) =
    Some (Z.of_nat (length val_idx)) /\
  (length train_idx + length val_idx + length test_idx = length idx)%nat /\
  Permutation (train_idx ++ val_idx ++ test_idx) idx.
Proof.
  intros H.
  destruct (train_val_test_split_lengths _ _ _ _ _ _ _ _ _ H) as (Ht & Hv & Hs).
  split; [exact Ht|]. split; [exact Hv|]. split; [exact Hs|].
  now apply (train_val_test_split_permutes _ _ tts_permutes) in H.
Qed.

Lemma train_val_test_split_parts_In idx val_size test_size shuffle s
      tr va te s' :
  train_val_test_split tts idx val_size test_size shuffle s =
    (Ok (tr, va, te), s') ->
  forall i, In i tr \/ In i va \/ In i te -> In i idx.
Proof.
  intros H i Hi.
  apply (train_val_test_split_permutes _ _ tts_permutes) in H.
  apply (Permutation_in _ H). now rewrite !in_app_iff.
Qed.

Lemma benign_then_malware (dataset : MalwareDataset) (b m : list Z) :
  (forall i, In i b -> benign_origin dataset i = true) ->
  (forall i, In i m -> benign_origin dataset i = false) ->
  filter (benign_origin dataset) (b ++ m) = b /\
  filter (fun i => negb (benign_origin dataset i)) (b ++ m) = m.
Proof.
  intros Hb Hm. rewrite !filter_app.
  rewrite (filter_all _ b Hb), (filter_none _ m Hm), app_nil_r.
  rewrite (filter_none _ b), (filter_all _ m); [auto| |].
  - intros i Hi. now rewrite (Hm i Hi).
  - intros i Hi. now rewrite (Hb i Hi).
Qed.

(** The parts of [make_idx]: each returned list is the benign range's part
    followed by the malware range's. *)
Lemma make_idx_parts dataset val_size test_size s tr va te s' :
  make_idx tts dataset val_size test_size s = (Ok (tr, va, te), s') ->
  let B := length (benign_files dataset) in
  let M := length (malware_files dataset) in
  exists btr bva bte mtr mva mte s1,
    train_val_test_split tts (range 0 B) val_size test_size true s =
      (Ok (btr, bva, bte), s1) /\
    train_val_test_split tts (range B (B + M)) val_size test_size true s1 =
      (Ok (mtr, mva, mte), s') /\
    tr = btr ++ mtr /\ va = bva ++ mva /\ te = bte ++ mte /\
    (forall i, In i btr \/ In i bva \/ In i bte ->
               benign_origin dataset i = true) /\
    (forall i, In i mtr \/ In i mva \/ In i mte ->
               benign_origin dataset i = false).
Proof.
  intros H B M.
  apply make_idx_Ok in H
    as (btr & bva & bte & mtr & mva & mte & s1 & H1 & H2 & -> & -> & ->).
  exists btr, bva, bte, mtr, mva, mte, s1.
  repeat split; try assumption; try reflexivity.
  - intros i Hi. apply (train_val_test_split_parts_In _ _ _ _ _ _ _ _ _ H1) in Hi.
    apply range_In in Hi. unfold benign_origin. apply Z.ltb_lt. lia.
  - intros i Hi. apply (train_val_test_split_parts_In _ _ _ _ _ _ _ _ _ H2) in Hi.
    apply range_In in Hi. unfold benign_origin. apply Z.ltb_ge. lia.
Qed.

(** X14: In each of the three lists [make_idx] returns, the indices of benign
    origin come first and those of malware origin after them. *)
Theorem make_idx_benign_first (dataset : MalwareDataset)
        (val_size test_size : pynum) (s s' : rng)
        (train_idx val_idx test_idx : list Z) :
  make_idx tts dataset val_size test_size s =
    (Ok (train_idx, val_idx, test_idx), s') ->
  let benign := filter (benign_origin dataset) in
  let malware := filter (fun i => negb (benign_origin dataset i)) in
  train_idx = benign train_idx ++ malware train_idx /\
  val_idx = benign val_idx ++ malware val_idx /\
  test_idx = benign test_idx ++ malware test_idx.
Proof.
  intros H benign malware.
  apply make_idx_parts in H
    as (btr & bva & bte & mtr & mva & mte & s1 & _ & _ & -> & -> & -> & Hb & Hm).
  unfold benign, malware.
  destruct (benign_then_malware dataset btr mtr) as [-> ->]; auto.
  destruct (benign_then_malware dataset bva mva) as [-> ->]; auto.
  destruct (benign_then_malware dataset bte mte) as [-> ->]; auto.
Qed.

(** X15: Every part is stratified, not the test part alone: the validation list
    holds the primitive's count for the benign indices the test split left
    and its count for the malware indices it left, and over the three lists
    the benign counts add up to B and the malware counts to M. *)
Theorem make_idx_val_stratified (dataset : MalwareDataset)
        (val_size test_size : pynum) (s s' : rng)
        (train_idx val_idx test_idx : list Z) :
  make_idx tts dataset val_size test_size s =
    (Ok (train_idx, val_idx, test_idx), s') ->
  let B := length (benign_files dataset) in
  let M := length (malware_files dataset) in
  n_test_of val_size (B - count_benign dataset test_idx) =
    Some (Z.of_nat (count_benign dataset val_idx)) /\
  n_test_of val_size (M - count_malware dataset test_idx) =
    Some (Z.of_nat (count_malware dataset val_idx)) /\
  (count_benign dataset train_idx + count_benign dataset val_idx +
   count_benign dataset test_idx = B)%nat /\
  (count_malware dataset train_idx + count_malware dataset val_idx +
   count_malware dataset test_idx = M)%nat.
Proof.
  intros H B M.
  apply make_idx_parts in H
    as (btr & bva & bte & mtr & mva & mte & s1 & H1 & H2 & -> & -> & -> & Hb & Hm).
  unfold count_benign, count_malware.
  destruct (benign_then_malware dataset btr mtr) as [-> ->]; auto.
  destruct (benign_then_malware dataset bva mva) as [-> ->]; auto.
  destruct (benign_then_malware dataset bte mte) as [-> ->]; auto.
  apply train_val_test_split_lengths in H1 as (_ & Hv1 & Hs1).
  apply train_val_test_split_lengths in H2 as (_ & Hv2 & Hs2).
  rewrite range_length in Hv1, Hv2, Hs1, Hs2. fold B in Hv1, Hs1, Hv2, Hs2.
  fold M in Hv2, Hs2.
  replace (B - 0)%nat with B in Hv1, Hs1 by lia.
  replace (B + M - B)%nat with M in Hv2, Hs2 by lia.
  repeat split; assumption.
Qed.

End Splitter.

Section LoaderFactory.

Context {rng : Type}.
Variable listdir : string -> option (list string).
Variable tts : list Z -> pynum -> bool -> rng -> option (list Z * list Z) * rng.

(** The second half of a successful [make_loaders]: the second dataset was
    listed and split with the sizes 1 and 0. *)
Lemma make_loaders_Ok_second benign_dir0 malware_dir0 batch_size
      val_size test_size s r s' :
  make_loaders listdir tts benign_dir0 malware_dir0 batch_size
    val_size test_size s = (Ok r, s') ->
  exists testing train1_idx val1_idx test1_idx s1,
    MalwareDataset_init listdir testing_benign_dir testing_malware_dir =
      Ok testing /\
    make_idx tts testing (PyInt 1) (PyInt 0) s1 =
      (Ok (train1_idx, val1_idx, test1_idx), s').
Proof.
  unfold make_loaders. intros H.
  destruct (1 <=? val_size + test_size)%float; [discriminate|].
  apply bind_Ok in H as (dataset & s0 & H0 & H).
  apply bind_Ok in H as ([[tr va] te] & s1 & H1 & H).
  apply bind_Ok in H as (l1 & s2 & L1 & H).
  apply bind_Ok in H as (l2 & s3 & L2 & H).
  apply bind_Ok in H as (testing & s4 & H2 & H).
  apply bind_Ok in H as ([[tr1 va1] te1] & s5 & H3 & H).
  apply bind_Ok in H as (l3 & s6 & L3 & H).
  exists testing, tr1, va1, te1, s4.
  apply lift_Ok in H2 as [H2 _]. apply lift_Ok in L3 as [_ ->].
  unfold ret in H. inversion H; subst.
  split; assumption.
Qed.

(** X17: [make_loaders] lists the two directories written into it: on a file
    system that lacks one of them it returns no loaders, whatever the two
    directories it was given hold. *)
Theorem make_loaders_needs_test_directories (benign_dir0 malware_dir0 : string)
        (batch_size : Z) (val_size test_size : float) (s : rng) :
  listdir testing_benign_dir = None \/ listdir testing_malware_dir = None ->
  forall r s',
    make_loaders listdir tts benign_dir0 malware_dir0 batch_size
      val_size test_size s <> (Ok r, s').
Proof.
  intros Hdir r s' H.
  apply make_loaders_Ok_second in H as (testing & _ & _ & _ & _ & Hinit & _).
  unfold MalwareDataset_init, os_listdir in Hinit.
  destruct Hdir as [Hd|Hd]; rewrite Hd in Hinit; [discriminate|].
  destruct (listdir testing_benign_dir); discriminate.
Qed.

(** X18: [make_loaders] splits the second dataset with the int sizes 1 and 0:
    with a primitive that refuses a test size of 0 it returns no loaders. *)
Theorem make_loaders_needs_zero_test_size (benign_dir0 malware_dir0 : string)
        (batch_size : Z) (val_size test_size : float) (s : rng) :
  (forall idx shuffle s0, fst (tts idx (PyInt 0) shuffle s0) = None) ->
  forall r s',
    make_loaders listdir tts benign_dir0 malware_dir0 batch_size
      val_size test_size s <> (Ok r, s').
Proof.
  intros Hzero r s' H.
  apply make_loaders_Ok_second in H as (testing & tr1 & va1 & te1 & s1 & _ & H).
  apply make_idx_Ok in H as (btr & bva & bte & mtr & mva & mte & s2 & H & _).
  apply train_val_test_split_Ok in H as (tv & s3 & H & _).
  unfold split in H.
  specialize (Hzero (range 0 (length (benign_files testing))) true s1).
  destruct (tts _ (PyInt 0) true s1) as [[p|] s4]; simpl in Hzero;
    discriminate.
Qed.



(** The primitive's contract, as before. *)
Hypothesis tts_permutes :
  forall idx test_size shuffle s tr te s',
    tts idx test_size shuffle s = (Some (tr, te), s') ->
    Permutation (tr ++ te) idx.

(** X16: The loaders [make_loaders] returns: only the training loader shuffles,
    all three carry the batch size, the training and test loaders view the
    dataset of the given directories, and the three index lists together
    are the indices of that dataset, each once. *)
Theorem make_loaders_loader_settings (benign_dir0 malware_dir0 : string)
        (batch_size : Z) (val_size test_size : float) (s s' : rng)
        (train_loader val_loader test_loader : DataLoader) :
  make_loaders listdir tts benign_dir0 malware_dir0 batch_size
    val_size test_size s = (Ok (train_loader, val_loader, test_loader), s') ->
  dl_shuffle train_loader = true /\
  dl_shuffle val_loader = false /\
  dl_shuffle test_loader = false /\
  dl_batch_size train_loader = batch_size /\
  dl_batch_size val_loader = batch_size /\
  dl_batch_size test_loader = batch_size /\
  MalwareDataset_init listdir benign_dir0 malware_dir0 =
    Ok (sub_dataset (dl_dataset train_loader)) /\
  sub_dataset (dl_dataset test_loader) = sub_dataset (dl_dataset train_loader) /\
  Permutation
    (sub_indices (dl_dataset train_loader) ++
     sub_indices (dl_dataset val_loader) ++
     sub_indices (dl_dataset test_loader))
    (range 0 (MalwareDataset_len (sub_dataset (dl_dataset train_loader)))).
Proof.
  intros H.
  apply make_loaders_Ok in H
    as (dataset & testing & tr & va & te & s1 & Hd & _ & Hidx & -> & -> & ->).
  simpl. repeat split; try reflexivity; try assumption.
  now apply (make_idx_permutes _ _ tts_permutes) in Hidx.
Qed.

End LoaderFactory.

(** ** The further properties at concrete inputs *)

(** One benign and five malware files: index -2 is answered with the third
    malware file. *)
Lemma getitem_negative_malware_witness :
  exists f,
    nth_error (malware_files (Ref.dataset 1 5))
      (Z.to_nat (Z.of_nat 5 + (-2 - Z.of_nat 1))) = Some f /\
    MalwareDataset_getitem Ref.path_join Ref.load_tensor (Ref.dataset 1 5) (-2) =
      match Ref.load_tensor
              (Ref.path_join (malware_dir (Ref.dataset 1 5)) f) with
      | Ok file_ => Ok (file_, 1%float)
      | Err e => Err e
      end.
Proof.
  apply (getitem_negative_malware Ref.path_join Ref.load_tensor
           (Ref.dataset 1 5) (-2)).
  vm_compute. split; [discriminate|reflexivity].
Defined.

(** The benign directory of the reference file system as a single-label
    dataset. *)
Definition benign_only : UniLabelDataset :=
  Build_UniLabelDataset "benign" 0%float (sorted (Ref.file_names "b" 5)).

Definition malware_only : UniLabelDataset :=
  Build_UniLabelDataset "malware" 1%float (sorted (Ref.file_names "m" 5)).

Lemma UniLabelDataset_getitem_spec_witness :
  label benign_only = 0%float /\
  (~ (- Z.of_nat (UniLabelDataset_len benign_only) <= -1 <
      Z.of_nat (UniLabelDataset_len benign_only)) ->
   UniLabelDataset_getitem Ref.path_join Ref.load_tensor benign_only (-1) =
     Err IndexError) /\
  (- Z.of_nat (UniLabelDataset_len benign_only) <= -1 <
     Z.of_nat (UniLabelDataset_len benign_only) ->
   exists f,
     nth_error (files benign_only)
       (Z.to_nat (-1 + Z.of_nat (UniLabelDataset_len benign_only))) = Some f /\
     UniLabelDataset_getitem Ref.path_join Ref.load_tensor benign_only (-1) =
       match Ref.load_tensor (Ref.path_join "benign" f) with
       | Ok file_ => Ok (file_, 0%float)
       | Err e => Err e
       end).
Proof.
  exact (UniLabelDataset_getitem_spec Ref.listdir Ref.path_join Ref.load_tensor
           "benign" false benign_only (-1) eq_refl).
Defined.

Lemma MalwareDataset_is_concatenation_witness :
  MalwareDataset_len (Ref.dataset 5 5) =
    (UniLabelDataset_len benign_only + UniLabelDataset_len malware_only)%nat /\
  (forall i, 0 <= i < Z.of_nat (UniLabelDataset_len benign_only) ->
     MalwareDataset_getitem Ref.path_join Ref.load_tensor (Ref.dataset 5 5) i =
       UniLabelDataset_getitem Ref.path_join Ref.load_tensor benign_only i) /\
  (forall i,
     Z.of_nat (UniLabelDataset_len benign_only) <= i <
       Z.of_nat (UniLabelDataset_len benign_only) +
       Z.of_nat (UniLabelDataset_len malware_only) ->
     MalwareDataset_getitem Ref.path_join Ref.load_tensor (Ref.dataset 5 5) i =
       UniLabelDataset_getitem Ref.path_join Ref.load_tensor malware_only
         (i - Z.of_nat (UniLabelDataset_len benign_only))).
Proof.
  exact (MalwareDataset_is_concatenation Ref.listdir Ref.path_join
           Ref.load_tensor "benign" "malware" (Ref.dataset 5 5)
           benign_only malware_only eq_refl eq_refl eq_refl).
Defined.

(** A file system that lists the directories of the reference one in the
    opposite order. *)
Definition listdir_reversed (path : string) : option (list string) :=
  match Ref.listdir path with
  | Some l => Some (rev l)
  | None => None
  end.

Lemma MalwareDataset_init_order_independent_witness :
  MalwareDataset_init Ref.listdir "benign" "malware" =
  MalwareDataset_init listdir_reversed "benign" "malware".
Proof.
  apply (MalwareDataset_init_order_independent Ref.listdir listdir_reversed
           "benign" "malware"
           (Ref.file_names "b" 5) (rev (Ref.file_names "b" 5))
           (Ref.file_names "m" 5) (rev (Ref.file_names "m" 5))
           eq_refl eq_refl eq_refl eq_refl);
    apply Permutation_rev.
Defined.

(** Two sequences, of two and of five values, padded to width four. *)
Lemma pad_sequence_rectangular_witness :
  length [[1; 2; 9; 9]; [3; 4; 5; 6]] = length [[1; 2]; [3; 4; 5; 6; 7]] /\
  Forall (fun row : list Z => length row = 4%nat) [[1; 2; 9; 9]; [3; 4; 5; 6]].
Proof.
  exact (pad_sequence_rectangular [[1; 2]; [3; 4; 5; 6; 7]] 4 9
           [[1; 2; 9; 9]; [3; 4; 5; 6]] eq_refl).
Defined.

Lemma pad_sequence_idempotent_witness :
  pad_sequence [[1; 2; 9; 9]; [3; 4; 5; 6]] (Some 4%nat) 9 =
    Ok [[1; 2; 9; 9]; [3; 4; 5; 6]].
Proof.
  exact (pad_sequence_idempotent [[1; 2]; [3; 4; 5; 6; 7]] 4 9
           [[1; 2; 9; 9]; [3; 4; 5; 6]] eq_refl).
Defined.

Lemma collate_fn_shape_witness :
  exists xs ys,
    collate_fn [(sample_10, 0%float); (sample_5000, 1%float)] = Ok (xs, ys) /\
    ys = [0%float; 1%float] /\
    length xs = 2%nat /\
    Forall (fun row : list Z => length row = 4096%nat) xs.
Proof.
  destruct (collate_fn [(sample_10, 0%float); (sample_5000, 1%float)])
    as [[xs ys]|e] eqn:E; [|discriminate E].
  exists xs, ys.
  destruct (collate_fn_shape _ xs ys E) as (Hy & _ & Hx & _ & Hrows).
  repeat split; assumption.
Defined.

Lemma collate_fn_app_witness :
  exists xs1 ys1 xs2 ys2,
    collate_fn [(sample_10, 0%float)] = Ok (xs1, ys1) /\
    collate_fn [(sample_5000, 1%float)] = Ok (xs2, ys2) /\
    collate_fn ([(sample_10, 0%float)] ++ [(sample_5000, 1%float)]) =
      Ok (xs1 ++ xs2, ys1 ++ ys2).
Proof.
  destruct (collate_fn [(sample_10, 0%float)]) as [[xs1 ys1]|e] eqn:E1;
    [|discriminate E1].
  destruct (collate_fn [(sample_5000, 1%float)]) as [[xs2 ys2]|e] eqn:E2;
    [|discriminate E2].
  exists xs1, ys1, xs2, ys2.
  split; [reflexivity|]. split; [reflexivity|].
  exact (collate_fn_app _ _ _ _ _ _ E1 E2).
Defined.

(** A hundred indices, fractions 0.2 and 0.2: 20 held out for the test, 16
    of the remaining 80 for validation, 64 left for training. *)
Lemma train_val_test_split_sizes_witness :
  exists train_idx val_idx test_idx s',
    train_val_test_split Ref.train_test_split (range 0 100)
      (PyFloat fraction_0_2) (PyFloat fraction_0_2) true 7 =
      (Ok (train_idx, val_idx, test_idx), s') /\
    length test_idx = 20%nat /\ length val_idx = 16%nat /\
    length train_idx = 64%nat.
Proof.
  destruct (train_val_test_split Ref.train_test_split (range 0 100)
              (PyFloat fraction_0_2) (PyFloat fraction_0_2) true 7)
    as [[[[tr va] te]|e] s'] eqn:E; [|exfalso; vm_compute in E; discriminate].
  exists tr, va, te, s'. split; [reflexivity|].
  destruct (train_val_test_split_sizes Ref.train_test_split ref_split_permutes
              ref_split_size _ _ _ _ _ _ _ _ _ E) as (Ht & Hv & Hsum & _).
  rewrite range_length in Ht, Hv, Hsum.
  assert (E1 : n_test_of (PyFloat fraction_0_2) (100 - 0) = Some 20)
    by (vm_compute; reflexivity).
  rewrite E1 in Ht. inversion Ht as [Ht'].
  assert (Hte : length te = 20%nat) by lia.
  rewrite Hte in Hv, Hsum.
  assert (E2 : n_test_of (PyFloat fraction_0_2) (100 - 0 - 20) = Some 16)
    by (vm_compute; reflexivity).
  rewrite E2 in Hv. inversion Hv as [Hv'].
  repeat split; lia.
Defined.

Lemma make_idx_benign_first_witness :
  [4; 0; 1; 7; 9; 5] =
    filter (benign_origin (Ref.dataset 5 5)) [4; 0; 1; 7; 9; 5] ++
    filter (fun i => negb (benign_origin (Ref.dataset 5 5) i))
      [4; 0; 1; 7; 9; 5] /\
  [3; 6] =
    filter (benign_origin (Ref.dataset 5 5)) [3; 6] ++
    filter (fun i => negb (benign_origin (Ref.dataset 5 5) i)) [3; 6] /\
  [2; 8] =
    filter (benign_origin (Ref.dataset 5 5)) [2; 8] ++
    filter (fun i => negb (benign_origin (Ref.dataset 5 5) i)) [2; 8].
Proof.
  apply (make_idx_benign_first Ref.train_test_split ref_split_permutes
           (Ref.dataset 5 5) (PyFloat fraction_0_2) (PyFloat fraction_0_2)
           7 1486001571).
  vm_compute; reflexivity.
Defined.

Lemma make_idx_val_stratified_witness :
  n_test_of (PyFloat fraction_0_2)
    (length (benign_files (Ref.dataset 5 5)) -
     count_benign (Ref.dataset 5 5) [2; 8]) =
    Some (Z.of_nat (count_benign (Ref.dataset 5 5) [3; 6])) /\
  n_test_of (PyFloat fraction_0_2)
    (length (malware_files (Ref.dataset 5 5)) -
     count_malware (Ref.dataset 5 5) [2; 8]) =
    Some (Z.of_nat (count_malware (Ref.dataset 5 5) [3; 6])) /\
  (count_benign (Ref.dataset 5 5) [4; 0; 1; 7; 9; 5]%Z +
   count_benign (Ref.dataset 5 5) [3; 6]%Z +
   count_benign (Ref.dataset 5 5) [2; 8]%Z =
     length (benign_files (Ref.dataset 5 5)))%nat /\
  (count_malware (Ref.dataset 5 5) [4; 0; 1; 7; 9; 5]%Z +
   count_malware (Ref.dataset 5 5) [3; 6]%Z +
   count_malware (Ref.dataset 5 5) [2; 8]%Z =
     length (malware_files (Ref.dataset 5 5)))%nat.
Proof.
  apply (make_idx_val_stratified Ref.train_test_split ref_split_permutes
           ref_split_size (Ref.dataset 5 5) (PyFloat fraction_0_2)
           (PyFloat fraction_0_2) 7 1486001571).
  vm_compute; reflexivity.
Defined.

(** A file system with the two given directories only. *)
Definition listdir_primary_only (path : string) : option (list string) :=
  if String.eqb path "benign" then Ref.listdir path
  else if String.eqb path "malware" then Ref.listdir path
  else None.

Lemma make_loaders_needs_test_directories_witness :
  is_ok (fst (make_loaders listdir_primary_only Ref.train_test_split
                "benign" "malware" 2 fraction_0_2 fraction_0_2 7)) = false.
Proof.
  destruct (make_loaders listdir_primary_only Ref.train_test_split
              "benign" "malware" 2 fraction_0_2 fraction_0_2 7)
    as [[r|e] s'] eqn:E; [exfalso|reflexivity].
  exact (make_loaders_needs_test_directories listdir_primary_only
           Ref.train_test_split "benign" "malware" 2 fraction_0_2 fraction_0_2
           7 (or_introl eq_refl) r s' E).
Defined.

Lemma make_loaders_needs_zero_test_size_witness :
  is_ok (fst (make_loaders Ref.listdir Ref.train_test_split
                "benign" "malware" 2 fraction_0_2 fraction_0_2 7)) = false.
Proof.
  destruct (make_loaders Ref.listdir Ref.train_test_split
              "benign" "malware" 2 fraction_0_2 fraction_0_2 7)
    as [[r|e] s'] eqn:E; [exfalso|reflexivity].
  exact (make_loaders_needs_zero_test_size Ref.listdir Ref.train_test_split
           "benign" "malware" 2 fraction_0_2 fraction_0_2 7
           (fun _ _ _ => eq_refl) r s' E).
Defined.


(** With a primitive that also accepts to hold out nothing, [make_loaders]
    gets to return. *)
Lemma make_loaders_loader_settings_witness :
  exists train_loader val_loader test_loader s',
    make_loaders Ref.listdir Ref.permissive_train_test_split "benign" "malware" 2
      fraction_0_2 fraction_0_2 7 =
      (Ok (train_loader, val_loader, test_loader), s') /\
    dl_shuffle train_loader = true /\
    dl_shuffle val_loader = false /\
    dl_shuffle test_loader = false /\
    dl_batch_size train_loader = 2 /\
    dl_batch_size val_loader = 2 /\
    dl_batch_size test_loader = 2 /\
    Permutation
      (sub_indices (dl_dataset train_loader) ++
       sub_indices (dl_dataset val_loader) ++
       sub_indices (dl_dataset test_loader))
      (range 0 (MalwareDataset_len (sub_dataset (dl_dataset train_loader)))).
Proof.
  destruct (make_loaders Ref.listdir Ref.permissive_train_test_split "benign" "malware" 2
              fraction_0_2 fraction_0_2 7)
    as [[[[train_loader val_loader] test_loader]|e] s'] eqn:E;
    [|exfalso; vm_compute in E; discriminate].
  exists train_loader, val_loader, test_loader, s'.
  split; [reflexivity|].
  destruct (make_loaders_loader_settings Ref.listdir Ref.permissive_train_test_split
              permissive_split_permutes _ _ _ _ _ _ _ _ _ _ E)
    as (H1 & H2 & H3 & H4 & H5 & H6 & _ & _ & H9).
  repeat split; assumption.
Defined.
